(** * RepoSpector: a shallow embedding of [GitHubAnalyzer]

    The development follows [src/RepoSpector.py].  One class,
    [GitHubAnalyzer], holds an authenticated client (token, repository name,
    base URL, request headers), reads a number of resources of the hosting
    platform, classifies what it reads into status messages, prints one
    report and opens a ticket for every status that matches a remediation
    predicate.

    Modelling choices.

    - Python [str] and [bytes] values are Rocq strings.  [lower] maps the
      ASCII capitals only; the program feeds lowered text to substring tests
      against ASCII needles and to nothing else.
    - A decoded JSON body is a value of [json]; JSON numbers are integers,
      and every response body of the platform decodes.  [None] is [JNull],
      which is also what [fetch_data] returns when it falls off its [else]
      branch.
    - The platform and the library routines whose internals the audit never
      looks into ([base64.b64decode(..).decode('utf-8')], the [repr] of a
      decoded container and of a bytes value) form the environment [Env];
      every theorem holds for every environment.  The platform answers a
      request by a response, or by none at all, in which case [requests]
      raises an exception that is not an [HTTPError].
    - Methods are state-passing computations over the client and an event
      log; an exception is the [Raise] result, and [try .. except HTTPError]
      is [try_except_HTTPError].  The log records every request, every
      printed text, and the call and the return of each check method in
      [report_findings].
    - [Response.raise_for_status] raises [HTTPError] exactly for the status
      codes 400..599, as the requests library defines it. *)

From Stdlib Require Import ZArith String Ascii DecimalString Lia.
From stdpp Require Import base strings list gmap.

Open Scope string_scope.
Open Scope list_scope.
Open Scope Z_scope.

(** ** Python strings *)

Module PyStr.

Definition is_ascii_upper (c : ascii) : bool :=
  (65 <=? nat_of_ascii c)%nat && (nat_of_ascii c <=? 90)%nat.

Definition lower_char (c : ascii) : ascii :=
  if is_ascii_upper c then ascii_of_nat (nat_of_ascii c + 32) else c.

(** [s.lower()] *)
Fixpoint lower (s : string) : string :=
  match s with
  | EmptyString => EmptyString
  | String c s' => String (lower_char c) (lower s')
  end.

(** [s.startswith(p)] *)
Fixpoint startswith (p s : string) : bool :=
  match p, s with
  | EmptyString, _ => true
  | String _ _, EmptyString => false
  | String a p', String b s' => if decide (a = b) then startswith p' s' else false
  end.

(** [needle in hay] *)
Fixpoint contains (needle hay : string) : bool :=
  startswith needle hay ||
  match hay with
  | EmptyString => false
  | String _ hay' => contains needle hay'
  end.

(** [sep.join(parts)] *)
Fixpoint join (sep : string) (parts : list string) : string :=
  match parts with
  | [] => ""
  | [p] => p
  | p :: ps => p +:+ sep +:+ join sep ps
  end.

(** [str(n)] for an integer *)
Definition of_Z (z : Z) : string := NilZero.string_of_int (Z.to_int z).

(** [str(len(l))] *)
Definition of_nat (n : nat) : string := NilZero.string_of_uint (Nat.to_uint n).

(** [a < b] on strings: lexicographic on character codes *)
Definition lt (a b : string) : bool := String.ltb a b.

End PyStr.

(** ** Exceptions and results *)

Inductive exn : Type :=
  | HTTPError (status : Z)      (* requests.exceptions.HTTPError, with the response status *)
  | RequestException            (* any other requests exception: no response was obtained *)
  | KeyError (key : string)
  | TypeError
  | AttributeError
  | ValueError.                 (* binascii.Error, UnicodeDecodeError *)

Inductive Result (A : Type) : Type :=
  | Ok (a : A)
  | Raise (e : exn).
Arguments Ok {A} a.
Arguments Raise {A} e.

(** ** Decoded JSON values and the Python operations used on them *)

#[warnings="-register-all"]
Inductive json : Type :=
  | JNull
  | JBool (b : bool)
  | JInt (z : Z)
  | JStr (s : string)
  | JList (items : list json)
  | JObj (fields : list (string * json)).

Fixpoint dict_get (k : string) (fields : list (string * json)) : option json :=
  match fields with
  | [] => None
  | (k', v) :: rest => if decide (k = k') then Some v else dict_get k rest
  end.

(** [v[k]] with a string key *)
Definition py_getitem (v : json) (k : string) : Result json :=
  match v with
  | JObj fields =>
      match dict_get k fields with
      | Some x => Ok x
      | None => Raise (KeyError k)
      end
  | _ => Raise TypeError
  end.

Fixpoint chars (s : string) : list json :=
  match s with
  | EmptyString => []
  | String c s' => JStr (String c EmptyString) :: chars s'
  end.

(** [for x in v]: the items of a list, the keys of a dict, the characters
    of a string *)
Definition py_iter (v : json) : Result (list json) :=
  match v with
  | JList items => Ok items
  | JObj fields => Ok (map (fun kv => JStr (fst kv)) fields)
  | JStr s => Ok (chars s)
  | _ => Raise TypeError
  end.

(** [bool(v)] *)
Definition py_truthy (v : json) : bool :=
  match v with
  | JNull => false
  | JBool b => b
  | JInt z => negb (z =? 0)
  | JStr s => negb (String.eqb s "")
  | JList items => match items with [] => false | _ => true end
  | JObj fields => match fields with [] => false | _ => true end
  end.

Definition as_number (v : json) : option Z :=
  match v with
  | JBool b => Some (if b then 1 else 0)
  | JInt z => Some z
  | _ => None
  end.

(** [a == b]; two dicts are equal when they have the same items in any
    order *)
Fixpoint py_eq (a b : json) {struct a} : bool :=
  match a, b with
  | JNull, JNull => true
  | JBool x, (JBool _ | JInt _) =>
      match as_number b with Some y => (if x then 1 else 0) =? y | None => false end
  | JInt x, (JBool _ | JInt _) =>
      match as_number b with Some y => x =? y | None => false end
  | JStr x, JStr y => String.eqb x y
  | JList xs, JList ys =>
      (fix all xs ys :=
         match xs, ys with
         | [], [] => true
         | x :: xs', y :: ys' => py_eq x y && all xs' ys'
         | _, _ => false
         end) xs ys
  | JObj d1, JObj d2 =>
      (length d1 =? length d2)%nat &&
      (fix all d :=
         match d with
         | [] => true
         | (k, v) :: d' =>
             match dict_get k d2 with
             | Some v' => py_eq v v'
             | None => false
             end && all d'
         end) d1
  | _, _ => false
  end.

(** [a < b] *)
Fixpoint py_lt (a b : json) {struct a} : Result bool :=
  match a, b with
  | JStr x, JStr y => Ok (PyStr.lt x y)
  | (JBool _ | JInt _), (JBool _ | JInt _) =>
      match as_number a, as_number b with
      | Some x, Some y => Ok (x <? y)
      | _, _ => Raise TypeError
      end
  | JList xs, JList ys =>
      (fix go xs ys :=
         match xs, ys with
         | [], [] => Ok false
         | [], _ :: _ => Ok true
         | _ :: _, [] => Ok false
         | x :: xs', y :: ys' => if py_eq x y then go xs' ys' else py_lt x y
         end) xs ys
  | _, _ => Raise TypeError
  end.

(** [v.lower()] *)
Definition py_lower (v : json) : Result string :=
  match v with
  | JStr s => Ok (PyStr.lower s)
  | _ => Raise AttributeError
  end.

(** ** The environment: platform and library routines *)

Record Response : Type := mkResponse {
  status_code : Z;
  json_body : json;            (* what [response.json()] returns *)
  content : string             (* the raw body, [response.content] *)
}.

Record Env : Type := mkEnv {
  (** [requests.get(url, headers=h)]; [None]: the call raises without a
      response *)
  requests_get : gmap string string -> string -> option Response;
  (** [requests.post(url, json={'title': t, 'body': b}, headers=h)] *)
  requests_post : gmap string string -> string -> string -> string -> option Response;
  (** [base64.b64decode(v).decode('utf-8')] *)
  b64decode_utf8 : json -> Result string;
  (** [repr(v)] of a decoded list or dict, [repr(b)] of a bytes value *)
  repr_container : json -> string;
  repr_bytes : string -> string
}.

(** ** Client state, events and the computation monad *)

Record Client : Type := mkClient {
  token : string;
  repo_name : string;
  base_url : string;
  headers : gmap string string
}.

Inductive Check : Type :=
  | Documentation | Issues | PullRequests | Dependencies | Security
  | License | Contributing | IssueTemplates | PRTemplates | Changelog.

Inductive Event : Type :=
  | EvEnter (c : Check)                                   (* a check method is called *)
  | EvLeave (c : Check)                                   (* and returns its status *)
  | EvGet (url : string) (h : gmap string string)
  | EvPost (url : string) (h : gmap string string) (title body : string)
  | EvPrint (text : string).

Record State : Type := mkState {
  client : Client;
  log : list Event
}.

Definition M (A : Type) : Type := State -> Result A * State.

Definition ret {A} (a : A) : M A := fun st => (Ok a, st).

Definition raise {A} (e : exn) : M A := fun st => (Raise e, st).

Definition bind {A B} (m : M A) (k : A -> M B) : M B :=
  fun st =>
    match m st with
    | (Ok a, st') => k a st'
    | (Raise e, st') => (Raise e, st')
    end.

Notation "x <- m ;; k" := (bind m (fun x => k))
  (at level 200, m at level 99, k at level 200, right associativity).
Notation "m ;;; k" := (bind m (fun _ => k))
  (at level 200, k at level 200, right associativity).

Definition lift {A} (r : Result A) : M A := fun st => (r, st).

Definition self : M Client := fun st => (Ok (client st), st).

Definition emit (e : Event) : M unit :=
  fun st => (Ok tt, mkState (client st) (log st ++ [e])).

Definition print (text : string) : M unit := emit (EvPrint text).

(** [try: body except requests.exceptions.HTTPError: handler] *)
Definition try_except_HTTPError {A} (body handler : M A) : M A :=
  fun st =>
    match body st with
    | (Raise (HTTPError _), st') => handler st'
    | r => r
    end.

(** [for x in xs: acc = step(acc, x)] *)
Fixpoint for_each {A B} (xs : list A) (acc : B) (step : B -> A -> M B) : M B :=
  match xs with
  | [] => ret acc
  | x :: xs' => acc' <- step acc x ;; for_each xs' acc' step
  end.

(** [any(p(x) for x in xs)]: stops at the first [True] *)
Fixpoint py_any {A} (p : A -> Result bool) (xs : list A) : Result bool :=
  match xs with
  | [] => Ok false
  | x :: xs' =>
      match p x with
      | Ok true => Ok true
      | Ok false => py_any p xs'
      | Raise e => Raise e
      end
  end.

(** [[x for x in xs if p(x)]] *)
Fixpoint py_filter {A} (p : A -> Result bool) (xs : list A) : Result (list A) :=
  match xs with
  | [] => Ok []
  | x :: xs' =>
      match p x with
      | Ok b =>
          match py_filter p xs' with
          | Ok ys => Ok (if b then x :: ys else ys)
          | Raise e => Raise e
          end
      | Raise e => Raise e
      end
  end.

(** [x = r; k(x)] inside an expression that may raise *)
Definition and_then {A B} (r : Result A) (k : A -> Result B) : Result B :=
  match r with
  | Ok a => k a
  | Raise e => Raise e
  end.

(** [response.raise_for_status()] raises for client and server errors *)
Definition is_error_status (s : Z) : bool := (400 <=? s) && (s <? 600).

(** ** GitHubAnalyzer *)

Module GitHubAnalyzer.

(** [__init__] *)
Definition init (token repo_name : string) : Client :=
  {| token := token;
     repo_name := repo_name;
     base_url := "https://api.github.com/repos/" +:+ repo_name;
     headers := {[ "Authorization" := "token " +:+ token ]} |}.

Section Methods.

Variable E : Env.

Definition fetch_data (url : string) : M json :=
  c <- self ;;
  emit (EvGet url (headers c)) ;;;
  match requests_get E (headers c) url with
  | None => raise RequestException
  | Some response =>
      if status_code response =? 200 then ret (json_body response)
      else if is_error_status (status_code response) then
        raise (HTTPError (status_code response))
      else ret JNull
  end.

(** [fetch_data(u)] where [u] was read from a decoded body *)
Definition fetch_data_at (u : json) : M json :=
  match u with
  | JStr url => fetch_data url
  | _ => raise RequestException
  end.

Definition essential_sections : list string :=
  ["installation"; "usage"; "contributing"; "license"; "changelog"].

Definition missing_sections (readme : string) : list string :=
  filter (fun section => PyStr.contains section (PyStr.lower readme) = false)
         essential_sections.

(** lines 26-31: the classification of a decoded README *)
Definition classify_readme (readme : string) : string :=
  match missing_sections readme with
  | [] => "README.md is present and contains all essential sections."
  | ms => "README.md is present but missing sections: " +:+ PyStr.join ", " ms +:+ "."
  end.

Definition check_documentation : M string :=
  c <- self ;;
  let url := base_url c +:+ "/readme" in
  try_except_HTTPError
    (response <- fetch_data url ;;
     content <- lift (py_getitem response "content") ;;
     readme <- lift (b64decode_utf8 E content) ;;
     ret (classify_readme readme))
    (ret "README.md file is missing.").

(** ['word' in comment['body'].lower()] *)
Definition mentions (word : string) (comment : json) : Result bool :=
  and_then (py_getitem comment "body") (fun body =>
  and_then (py_lower body) (fun text =>
  Ok (PyStr.contains word text))).

(** lines 40-44: the body of the loop over the open issues *)
Definition issue_step (unresolved_issues : list json) (issue : json) : M (list json) :=
  comments_url <- lift (py_getitem issue "comments_url") ;;
  comments <- fetch_data_at comments_url ;;
  thread <- lift (py_iter comments) ;;
  resolved <- lift (py_any (mentions "resolved") thread) ;;
  ret (if resolved then unresolved_issues else unresolved_issues ++ [issue]).

(** [issue['updated_at'] < issue['created_at']] *)
Definition is_inactive (issue : json) : Result bool :=
  and_then (py_getitem issue "updated_at") (fun updated_at =>
  and_then (py_getitem issue "created_at") (fun created_at =>
  py_lt updated_at created_at)).

(** lines 46-51 *)
Definition issues_message (unresolved_issues inactive_issues : list json) : string :=
  match unresolved_issues with
  | [] => "No unresolved open issues."
  | _ :: _ =>
      match inactive_issues with
      | _ :: _ =>
          "Found " +:+ PyStr.of_nat (length unresolved_issues) +:+
          " unresolved open issues, including " +:+
          PyStr.of_nat (length inactive_issues) +:+ " with long inactivity."
      | [] =>
          "Found " +:+ PyStr.of_nat (length unresolved_issues) +:+
          " unresolved open issues."
      end
  end.

Definition analyze_issues : M string :=
  c <- self ;;
  let url := base_url c +:+ "/issues?state=open" in
  open_issues <- fetch_data url ;;
  items <- lift (py_iter open_issues) ;;
  unresolved_issues <- for_each items [] issue_step ;;
  inactive_issues <- lift (py_filter is_inactive unresolved_issues) ;;
  ret (issues_message unresolved_issues inactive_issues).

(** lines 58-64: the body of the loop over the open pull requests *)
Definition pull_step (unmerged_pulls : list json) (pull : json) : M (list json) :=
  merged_at <- lift (py_getitem pull "merged_at") ;;
  if py_truthy merged_at then ret unmerged_pulls
  else
    links <- lift (py_getitem pull "_links") ;;
    link <- lift (py_getitem links "comments") ;;
    comments_url <- lift (py_getitem link "href") ;;
    comments <- fetch_data_at comments_url ;;
    thread <- lift (py_iter comments) ;;
    addressed <- lift (py_any (mentions "addressed") thread) ;;
    ret (if addressed then unmerged_pulls else unmerged_pulls ++ [pull]).

Definition pulls_message (unmerged_pulls : list json) : string :=
  match unmerged_pulls with
  | [] => "No unresolved open pull requests."
  | _ :: _ =>
      "Found " +:+ PyStr.of_nat (length unmerged_pulls) +:+
      " unresolved open pull requests."
  end.

Definition analyze_pull_requests : M string :=
  c <- self ;;
  let url := base_url c +:+ "/pulls?state=open" in
  open_pulls <- fetch_data url ;;
  items <- lift (py_iter open_pulls) ;;
  unmerged_pulls <- for_each items [] pull_step ;;
  ret (pulls_message unmerged_pulls).

Definition manifest_files : list string := ["package.json"; "requirements.txt"].

Definition found_message (file_name : string) : string :=
  file_name +:+ " found and needs further analysis.".

Definition missing_message (file_name : string) : string :=
  file_name +:+ " is missing.".

(** lines 74-80: the body of the loop over the manifest files *)
Definition dependency_step (dependencies_status : list string) (file_name : string)
  : M (list string) :=
  c <- self ;;
  let url := base_url c +:+ "/contents/" +:+ file_name in
  try_except_HTTPError
    (response <- fetch_data url ;;
     ret (dependencies_status ++ [found_message file_name]))
    (ret (dependencies_status ++ [missing_message file_name])).

Definition check_dependencies : M (list string) :=
  for_each manifest_files [] dependency_step.

(** [f"{v}"] *)
Definition py_str (v : json) : string :=
  match v with
  | JNull => "None"
  | JBool true => "True"
  | JBool false => "False"
  | JInt z => PyStr.of_Z z
  | JStr s => s
  | JList _ | JObj _ => repr_container E v
  end.

Definition check_security : M string :=
  c <- self ;;
  let url := base_url c +:+ "/vulnerability-alerts" in
  try_except_HTTPError
    (alerts <- fetch_data url ;;
     total_count <- lift (py_getitem alerts "total_count") ;;
     if py_eq total_count (JInt 0) then ret "No reported vulnerabilities."
     else
       total_count <- lift (py_getitem alerts "total_count") ;;
       ret ("Found " +:+ py_str total_count +:+ " security vulnerabilities."))
    (ret "Could not retrieve security vulnerabilities.").

Definition check_license : M string :=
  c <- self ;;
  let url := base_url c +:+ "/license" in
  try_except_HTTPError
    (response <- fetch_data url ;;
     license <- lift (py_getitem response "license") ;;
     if py_truthy license then
       license <- lift (py_getitem response "license") ;;
       name <- lift (py_getitem license "name") ;;
       ret ("License file is present with " +:+ py_str name +:+ " license.")
     else ret "License file is missing.")
    (ret "License file is missing.").

(** lines 105-135: four probes of one shape *)
Definition probe (path present missing : string) : M string :=
  c <- self ;;
  let url := base_url c +:+ path in
  try_except_HTTPError
    (fetch_data url ;;; ret present)
    (ret missing).

Definition check_contributing_guidelines : M string :=
  probe "/contents/CONTRIBUTING.md"
        "Contributing guidelines are present."
        "Contributing guidelines are missing.".

Definition check_issue_templates : M string :=
  probe "/contents/.github/ISSUE_TEMPLATE/"
        "Issue templates are present."
        "Issue templates are missing.".

Definition check_pull_request_templates : M string :=
  probe "/contents/.github/PULL_REQUEST_TEMPLATE.md"
        "Pull request templates are present."
        "Pull request templates are missing.".

Definition check_changelog : M string :=
  probe "/contents/CHANGELOG.md"
        "Changelog is present."
        "Changelog is missing.".

Definition update_headers (key value : string) : M unit :=
  fun st =>
    let c := client st in
    (Ok tt,
     mkState (mkClient (token c) (repo_name c) (base_url c) (<[key := value]> (headers c)))
             (log st)).

Definition create_issue (title body : string) : M unit :=
  c <- self ;;
  let url := base_url c +:+ "/issues" in
  update_headers "Accept" "application/vnd.github.v3+json" ;;;
  c <- self ;;
  emit (EvPost url (headers c) title body) ;;;
  match requests_post E (headers c) url title body with
  | None => raise RequestException
  | Some response =>
      if status_code response =? 201 then print ("Issue created: " +:+ title)
      else print ("Failed to create issue: " +:+ repr_bytes E (content response))
  end.

(** The ten local variables of [report_findings] *)
Record Statuses : Type := mkStatuses {
  documentation_status : string;
  issues_status : string;
  pulls_status : string;
  dependencies_status : list string;
  security_status : string;
  license_status : string;
  contributing_status : string;
  issue_templates_status : string;
  pr_templates_status : string;
  changelog_status : string
}.

(** A call of a check method, with its entry and its return on the log *)
Definition call {A} (c : Check) (m : M A) : M A :=
  emit (EvEnter c) ;;;
  a <- m ;;
  emit (EvLeave c) ;;;
  ret a.

(** lines 138-147 *)
Definition run_checks : M Statuses :=
  documentation_status <- call Documentation check_documentation ;;
  issues_status <- call Issues analyze_issues ;;
  pulls_status <- call PullRequests analyze_pull_requests ;;
  dependencies_status <- call Dependencies check_dependencies ;;
  security_status <- call Security check_security ;;
  license_status <- call License check_license ;;
  contributing_status <- call Contributing check_contributing_guidelines ;;
  issue_templates_status <- call IssueTemplates check_issue_templates ;;
  pr_templates_status <- call PRTemplates check_pull_request_templates ;;
  changelog_status <- call Changelog check_changelog ;;
  ret (mkStatuses documentation_status issues_status pulls_status dependencies_status
                  security_status license_status contributing_status
                  issue_templates_status pr_templates_status changelog_status).

Definition nl : string := String (ascii_of_nat 10) EmptyString.

Definition report_line (label value : string) : string :=
  "        " +:+ label +:+ value +:+ nl.

(** lines 149-161 *)
Definition render_report (repo_name : string) (s : Statuses) : string :=
  nl +:+
  report_line "Repository Analysis Report for " (repo_name +:+ ":") +:+
  report_line "1. Documentation: " (documentation_status s) +:+
  report_line "2. Open Issues: " (issues_status s) +:+
  report_line "3. Open Pull Requests: " (pulls_status s) +:+
  report_line "4. Dependencies Status: " (PyStr.join ", " (dependencies_status s)) +:+
  report_line "5. Security Status: " (security_status s) +:+
  report_line "6. License: " (license_status s) +:+
  report_line "7. Contributing Guidelines: " (contributing_status s) +:+
  report_line "8. Issue Templates: " (issue_templates_status s) +:+
  report_line "9. Pull Request Templates: " (pr_templates_status s) +:+
  report_line "10. Changelog: " (changelog_status s) +:+
  "        ".

(** ['word' in status.lower()] *)
Definition flagged (word status : string) : bool :=
  PyStr.contains word (PyStr.lower status).

Definition when (b : bool) (m : M unit) : M unit :=
  if b then m else ret tt.

(** lines 164-182 *)
Definition remediate (s : Statuses) : M unit :=
  when (flagged "missing" (documentation_status s))
    (create_issue "Missing README.md or essential sections" (documentation_status s)) ;;;
  when (flagged "long inactivity" (issues_status s))
    (create_issue "Unresolved issues with long inactivity" (issues_status s)) ;;;
  when (existsb (flagged "missing") (dependencies_status s))
    (create_issue "Missing dependency files" (PyStr.join ", " (dependencies_status s))) ;;;
  when (flagged "security vulnerabilities" (security_status s))
    (create_issue "Security vulnerabilities detected" (security_status s)) ;;;
  when (flagged "missing" (license_status s))
    (create_issue "License file missing" (license_status s)) ;;;
  when (flagged "missing" (contributing_status s))
    (create_issue "Contributing guidelines missing" (contributing_status s)) ;;;
  when (flagged "missing" (issue_templates_status s))
    (create_issue "Issue templates missing" (issue_templates_status s)) ;;;
  when (flagged "missing" (pr_templates_status s))
    (create_issue "Pull request templates missing" (pr_templates_status s)) ;;;
  when (flagged "missing" (changelog_status s))
    (create_issue "Changelog missing" (changelog_status s)).

Definition report_findings : M unit :=
  s <- run_checks ;;
  c <- self ;;
  print (render_report (repo_name c) s) ;;;
  remediate s.

(** lines 215-226, without the banner and the animation: the audit of
    [repo_name] with a fresh client *)
Definition main (token repo_name : string) : Result unit * State :=
  report_findings (mkState (init token repo_name) []).

End Methods.

End GitHubAnalyzer.

Import GitHubAnalyzer.

(** * Vocabulary of the properties *)

(** ** Texts, replies and issues *)

(** Two characters that are the same letter in either case: equal, or a
    capital A..Z and its small letter, 32 codes further. *)
Definition is_capital (c : ascii) : Prop := (65 ≤ nat_of_ascii c ≤ 90)%nat.

Definition same_letter (a b : ascii) : Prop :=
  a = b ∨
  (is_capital a ∧ nat_of_ascii b = (nat_of_ascii a + 32)%nat) ∨
  (is_capital b ∧ nat_of_ascii a = (nat_of_ascii b + 32)%nat).

(** Two texts that are equal up to the case of their letters. *)
Inductive same_text : string → string → Prop :=
  | same_text_empty : same_text "" ""
  | same_text_letter a b s t :
      same_letter a b → same_text s t → same_text (String a s) (String b t).

(** [kw] occurs in [text] as a substring, in any casing. *)
Definition ci_occurs (kw text : string) : Prop :=
  ∃ pre w post, text = pre +:+ w +:+ post ∧ same_text w kw.

(** What [fetch_data] makes of the reply to its request. *)
Definition fetch_outcome (reply : option Response) : Result json :=
  match reply with
  | None => Raise RequestException
  | Some response =>
      if status_code response =? 200 then Ok (json_body response)
      else if is_error_status (status_code response)
           then Raise (HTTPError (status_code response))
           else Ok JNull
  end.

(** The state after one read of [url]. *)
Definition sent (url : string) (st : State) : State :=
  mkState (client st) (log st ++ [EvGet url (headers (client st))]).

(** The required keywords that [text] lacks are exactly those of [ms]. *)
Definition missing_keywords_are (text : string) (ms : list string) : Prop :=
  ∀ kw, kw ∈ essential_sections → (¬ ci_occurs kw text ↔ kw ∈ ms).

(** A comment with a text body. *)
Definition text_comment (comment : json) : Prop :=
  ∃ body, py_getitem comment "body" = Ok (JStr body).

(** A comment whose text has no occurrence of [word], in any casing. *)
Definition silent_on (word : string) (comment : json) : Prop :=
  ∃ body, py_getitem comment "body" = Ok (JStr body) ∧ ¬ ci_occurs word body.

(** The platform serves [thread] as the comments of [issue]. *)
Definition serves (E : Env) (c : Client) (issue : json) (thread : list json) : Prop :=
  ∃ url r,
    py_getitem issue "comments_url" = Ok (JStr url) ∧
    requests_get E (headers c) url = Some r ∧
    status_code r = 200 ∧
    json_body r = JList thread.

(** The two time stamps of an issue. *)
Definition stamped (issue : json) (updated created : string) : Prop :=
  py_getitem issue "updated_at" = Ok (JStr updated) ∧
  py_getitem issue "created_at" = Ok (JStr created).

(** The platform's reply to a read of [path] below the repository. *)
Definition resource (E : Env) (c : Client) (path : string) : option Response :=
  requests_get E (headers c) (base_url c +:+ path).

(** The status of a manifest file, by the status code of the reply. *)
Definition manifest_verdict (file_name : string) (r : Response) : string :=
  if is_error_status (status_code r) then missing_message file_name
  else found_message file_name.

(** ** Logs and clients *)

Definition is_get (e : Event) : Prop :=
  match e with EvGet _ _ => True | _ => False end.

(** A computation that leaves the client as it is and adds nothing but
    reads to the log. *)
Definition reads_only {A} (m : M A) : Prop :=
  ∀ st, ∃ gets, Forall is_get gets ∧ snd (m st) = mkState (client st) (log st ++ gets).

(** A computation that leaves every field of the client as it is. *)
Definition keeps_client {A} (m : M A) : Prop :=
  ∀ st, client (snd (m st)) = client st.

Definition is_ok {A} (r : Result A) : bool :=
  match r with Ok _ => true | Raise _ => false end.

(** The order of the checks and of the remediation predicates. *)
Definition check_order : list Check :=
  [Documentation; Issues; PullRequests; Dependencies; Security;
   License; Contributing; IssueTemplates; PRTemplates; Changelog].

Definition ticket_order : list string :=
  ["Missing README.md or essential sections";
   "Unresolved issues with long inactivity";
   "Missing dependency files";
   "Security vulnerabilities detected";
   "License file missing";
   "Contributing guidelines missing";
   "Issue templates missing";
   "Pull request templates missing";
   "Changelog missing"].

(** The calls and returns of check methods on a log, in order. *)
Definition marks (evs : list Event) : list Event :=
  omap (λ e, match e with
             | EvEnter _ | EvLeave _ => Some e
             | _ => None
             end) evs.

(** Every check of [cs] called and returned, one after the other. *)
Definition schedule (cs : list Check) : list Event :=
  flat_map (λ c, [EvEnter c; EvLeave c]) cs.

(** The tickets submitted on a log, as (title, body), in order. *)
Definition tickets (evs : list Event) : list (string * string) :=
  omap (λ e, match e with
             | EvPost _ _ title body => Some (title, body)
             | _ => None
             end) evs.

(** The bodies of the tickets that carry [title]. *)
Definition tickets_titled (title : string) (evs : list Event) : list string :=
  map snd (filter (λ t, fst t = title) (tickets evs)).

Definition is_post (e : Event) : Prop :=
  match e with EvPost _ _ _ _ => True | _ => False end.

(** Events of the checking phase and of the reporting phase. *)
Definition is_check_event (e : Event) : Prop :=
  match e with EvEnter _ | EvLeave _ | EvGet _ _ => True | _ => False end.

Definition is_report_event (e : Event) : Prop :=
  match e with EvPost _ _ _ _ | EvPrint _ => True | _ => False end.

(** The log of the checks [cs] run in sequence: each check is called,
    reads, and returns before the next is called; when a check raises
    ([ok = false]) the log ends inside it. *)
Fixpoint checks_trace (cs : list Check) (ok : bool) (evs : list Event) : Prop :=
  match cs with
  | [] => ok = true ∧ evs = []
  | c :: cs' =>
      ∃ gets, Forall is_get gets ∧
        ((∃ rest, evs = EvEnter c :: gets ++ EvLeave c :: rest ∧ checks_trace cs' ok rest)
         ∨ (ok = false ∧ evs = EvEnter c :: gets))
  end.

Definition checks_run (cs : list Check) {A} (m : M A) : Prop :=
  ∀ st, ∃ evs,
    snd (m st) = mkState (client st) (log st ++ evs) ∧
    checks_trace cs (is_ok (fst (m st))) evs.

(** [m] returns [v] in some state of the client [c]. *)
Definition yields {A} (c : Client) (m : M A) (v : A) : Prop :=
  ∃ st, client st = c ∧ fst (m st) = Ok v.

Definition accept : string := "application/vnd.github.v3+json".

(** What may differ between the client before and after: nothing but the
    [Accept] entry of the headers. *)
Definition frame (c c' : Client) : Prop :=
  token c' = token c ∧ repo_name c' = repo_name c ∧ base_url c' = base_url c ∧
  (headers c' = headers c ∨ headers c' = <["Accept" := accept]> (headers c)).

Definition ticket_if (b : bool) (title body : string) : list (string * string) :=
  if b then [(title, body)] else [].

(** The tickets that the remediation predicates select, in their order. *)
Definition planned_tickets (s : Statuses) : list (string * string) :=
  ticket_if (flagged "missing" (documentation_status s))
    "Missing README.md or essential sections" (documentation_status s) ++
  ticket_if (flagged "long inactivity" (issues_status s))
    "Unresolved issues with long inactivity" (issues_status s) ++
  ticket_if (existsb (flagged "missing") (dependencies_status s))
    "Missing dependency files" (PyStr.join ", " (dependencies_status s)) ++
  ticket_if (flagged "security vulnerabilities" (security_status s))
    "Security vulnerabilities detected" (security_status s) ++
  ticket_if (flagged "missing" (license_status s))
    "License file missing" (license_status s) ++
  ticket_if (flagged "missing" (contributing_status s))
    "Contributing guidelines missing" (contributing_status s) ++
  ticket_if (flagged "missing" (issue_templates_status s))
    "Issue templates missing" (issue_templates_status s) ++
  ticket_if (flagged "missing" (pr_templates_status s))
    "Pull request templates missing" (pr_templates_status s) ++
  ticket_if (flagged "missing" (changelog_status s))
    "Changelog missing" (changelog_status s).

(** [m] submits the tickets of [plan] in order, all of them unless it
    raises, which it does only after a submission; it writes nothing else
    but console lines, and changes the client within [frame]. *)
Definition submits (plan : list (string * string)) (m : M unit) : Prop :=
  ∀ st, ∃ evs c',
    snd (m st) = mkState c' (log st ++ evs) ∧
    frame (client st) c' ∧
    Forall is_report_event evs ∧
    tickets evs `prefix_of` plan ∧
    (fst (m st) = Ok tt → tickets evs = plan) ∧
    (fst (m st) = Ok tt ∨ tickets evs ≠ []).

(** ** Concrete platforms *)

Definition answer (status : Z) (body : json) : Response :=
  mkResponse status body "".

Fixpoint route (table : list (string * Response)) (default : Response) (url : string)
  : Response :=
  match table with
  | [] => default
  | (u, r) :: rest => if String.eqb u url then r else route rest default url
  end.

(** A decoder for platforms that serve their README as plain text. *)
Definition plain_decoder (v : json) : Result string :=
  match v with
  | JStr s => Ok s
  | _ => Raise TypeError
  end.

(** A platform that answers reads from a table of URLs, and every other
    read with [default]; every ticket is created. *)
Definition platform (table : list (string * Response)) (default : Response) : Env :=
  mkEnv (λ _ url, Some (route table default url))
        (λ _ _ _ _, Some (mkResponse 201 JNull ""))
        plain_decoder
        (λ _, "[...]")
        (λ b, b).

Definition demo_client : Client := init "t0k3n" "octo/repo".

Definition demo_state : State := mkState demo_client [].

Definition demo_url (path : string) : string :=
  "https://api.github.com/repos/octo/repo" +:+ path.

(** Every read is answered 304 Not Modified. *)
Definition not_modified : Env := platform [] (answer 304 JNull).

(** Every read is answered 404 Not Found. *)
Definition nothing_found : Env := platform [] (answer 404 JNull).

(** An existing repository with no open issue or pull request, three
    security alerts, and none of the files the audit looks for. *)
Definition bare_repository : Env :=
  platform
    [(demo_url "/issues?state=open", answer 200 (JList []));
     (demo_url "/pulls?state=open", answer 200 (JList []));
     (demo_url "/vulnerability-alerts", answer 200 (JObj [("total_count", JInt 3)]))]
    (answer 404 JNull).

(** The same repository with vulnerability alerts switched off. *)
Definition alerts_disabled : Env :=
  platform
    [(demo_url "/issues?state=open", answer 200 (JList []));
     (demo_url "/pulls?state=open", answer 200 (JList []))]
    (answer 404 JNull).

(** [E], except that reads of the URLs in [down] get no response. *)
Definition unreachable (down : list string) (E : Env) : Env :=
  mkEnv (λ h url, if existsb (String.eqb url) down then None else requests_get E h url)
        (requests_post E)
        (b64decode_utf8 E)
        (repr_container E)
        (repr_bytes E).

(** The two repositories above, with the license read getting no response. *)
Definition bare_repository_cut_off : Env :=
  unreachable [demo_url "/license"] bare_repository.

Definition alerts_disabled_cut_off : Env :=
  unreachable [demo_url "/license"] alerts_disabled.

(** A repository whose README names every required section, and one whose
    README lacks two of them. *)
Definition well_documented : Env :=
  platform
    [(demo_url "/readme",
      answer 200 (JObj [("content",
        JStr "Installation, USAGE, Contributing, License and ChangeLog")]))]
    (answer 404 JNull).

Definition partly_documented : Env :=
  platform
    [(demo_url "/readme",
      answer 200 (JObj [("content", JStr "Installation, USAGE, Contributing")]))]
    (answer 404 JNull).

(** An open issue of the demo repository whose thread says it is resolved
    and whose update stamp lies before its creation stamp. *)
Definition settled_issue : json :=
  JObj [("comments_url", JStr (demo_url "/issues/1/comments"));
        ("updated_at", JStr "2024-01-01T00:00:00Z");
        ("created_at", JStr "2024-06-01T00:00:00Z")].

(** The same stamps on an issue that nobody answered. *)
Definition stale_issue : json :=
  JObj [("comments_url", JStr (demo_url "/issues/2/comments"));
        ("updated_at", JStr "2024-01-01T00:00:00Z");
        ("created_at", JStr "2024-06-01T00:00:00Z")].

Definition settled_board : Env :=
  platform
    [(demo_url "/issues?state=open", answer 200 (JList [settled_issue]));
     (demo_url "/issues/1/comments",
      answer 200 (JList [JObj [("body", JStr "Resolved in v2")]]))]
    (answer 404 JNull).

Definition stale_board : Env :=
  platform
    [(demo_url "/issues?state=open", answer 200 (JList [settled_issue; stale_issue]));
     (demo_url "/issues/1/comments",
      answer 200 (JList [JObj [("body", JStr "Resolved in v2")]]));
     (demo_url "/issues/2/comments",
      answer 200 (JList [JObj [("body", JStr "any news?")]]))]
    (answer 404 JNull).

(** Two open issues that nobody declared resolved. *)
Definition fresh_issue : json :=
  JObj [("comments_url", JStr (demo_url "/issues/3/comments"));
        ("updated_at", JStr "2024-07-01T00:00:00Z");
        ("created_at", JStr "2024-06-01T00:00:00Z")].

Definition quiet_board : Env :=
  platform
    [(demo_url "/issues?state=open", answer 200 (JList [stale_issue; fresh_issue]));
     (demo_url "/issues/2/comments",
      answer 200 (JList [JObj [("body", JStr "any news?")]]));
     (demo_url "/issues/3/comments", answer 200 (JList []))]
    (answer 404 JNull).

(** ** Further platforms *)

(** Every read is answered 204 No Content. *)
Definition no_content : Env := platform [] (answer 204 JNull).

(** A repository under a license that has the word in its name. *)
Definition oddly_licensed : Env :=
  platform
    [(demo_url "/license",
      answer 200 (JObj [("license", JObj [("name", JStr "Missing Link License")])]))]
    (answer 404 JNull).

(** A repository that reports [n] vulnerability alerts. *)
Definition alerted (n : Z) : Env :=
  platform
    [(demo_url "/vulnerability-alerts", answer 200 (JObj [("total_count", JInt n)]))]
    (answer 404 JNull).


(** ** Pull requests *)

(** A pull request that is flagged as merged, and one that is not. *)
Definition merged (pull : json) : Prop :=
  ∃ m, py_getitem pull "merged_at" = Ok m ∧ py_truthy m = true.

Definition unmerged (pull : json) : Prop :=
  ∃ m, py_getitem pull "merged_at" = Ok m ∧ py_truthy m = false.

(** The platform serves [thread] as the comments of [pull]. *)
Definition serves_pull (E : Env) (c : Client) (pull : json) (thread : list json) : Prop :=
  ∃ links link url r,
    py_getitem pull "_links" = Ok links ∧
    py_getitem links "comments" = Ok link ∧
    py_getitem link "href" = Ok (JStr url) ∧
    requests_get E (headers c) url = Some r ∧
    status_code r = 200 ∧
    json_body r = JList thread.

Definition merged_pull : json :=
  JObj [("merged_at", JStr "2024-05-01T00:00:00Z")].

Definition open_pull (n : string) : json :=
  JObj [("merged_at", JNull);
        ("_links", JObj [("comments",
           JObj [("href", JStr (demo_url ("/issues/" +:+ n +:+ "/comments")))])])].

Definition review_board : Env :=
  platform
    [(demo_url "/pulls?state=open",
      answer 200 (JList [merged_pull; open_pull "7"; open_pull "8"]));
     (demo_url "/issues/7/comments",
      answer 200 (JList [JObj [("body", JStr "Addressed, thanks")]]));
     (demo_url "/issues/8/comments",
      answer 200 (JList [JObj [("body", JStr "please rebase")]]))]
    (answer 404 JNull).

Definition merged_board : Env :=
  platform
    [(demo_url "/pulls?state=open", answer 200 (JList [merged_pull; merged_pull]))]
    (answer 404 JNull).


(** ** Settled issues, and further platforms *)

(** An issue whose thread has a comment that mentions [word], after
    comments with a text body; what follows that comment is arbitrary. *)
Definition settled_by (E : Env) (c : Client) (word : string) (issue : json) : Prop :=
  ∃ before comment after body,
    serves E c issue (before ++ comment :: after) ∧
    Forall text_comment before ∧
    py_getitem comment "body" = Ok (JStr body) ∧
    ci_occurs word body.

(** An open issue without time stamps, whose thread goes on with an entry
    that is no comment at all after the one that settles it. *)
Definition bare_issue : json :=
  JObj [("comments_url", JStr (demo_url "/issues/4/comments"))].

Definition closed_board : Env :=
  platform
    [(demo_url "/issues?state=open", answer 200 (JList [bare_issue]));
     (demo_url "/issues/4/comments",
      answer 200 (JList [JObj [("body", JStr "looking into it")];
                         JObj [("body", JStr "RESOLVED by #12")];
                         JNull]))]
    (answer 404 JNull).

(** A repository whose pull requests cannot be listed. *)
Definition pulls_forbidden : Env :=
  platform
    [(demo_url "/issues?state=open", answer 200 (JList []));
     (demo_url "/pulls?state=open", answer 403 JNull)]
    (answer 404 JNull).

(** A platform that rejects every ticket. *)
Definition read_only_platform : Env :=
  mkEnv (requests_get bare_repository)
        (λ _ _ _ _, Some (mkResponse 403 JNull "Forbidden"))
        plain_decoder
        (λ _, "[...]")
        (λ b, b).


(** ** Requests *)

(** A request of the client [c]: a read carries the headers of [c]; a
    ticket goes to the issue tracker of the repository of [c] and carries
    those headers and the [Accept] entry. *)
Definition request_of (c : Client) (e : Event) : Prop :=
  match e with
  | EvGet _ h => h = headers c
  | EvPost url h _ _ =>
      url = base_url c +:+ "/issues" ∧ h = <["Accept" := accept]> (headers c)
  | _ => True
  end.

(** A computation that leaves the client as it is and logs nothing but
    requests of the client. *)
Definition sends_as_client {A} (m : M A) : Prop :=
  ∀ st, ∃ evs,
    Forall (request_of (client st)) evs ∧
    snd (m st) = mkState (client st) (log st ++ evs).

(** A computation that logs nothing but requests of [c], in every state
    whose client is [c] up to the [Accept] entry. *)
Definition posts_as (c : Client) (m : M unit) : Prop :=
  ∀ st, frame c (client st) →
    ∃ evs,
      Forall (request_of c) evs ∧
      log (snd (m st)) = log st ++ evs ∧
      frame c (client (snd (m st))).

(** The platform answers every ticket. *)
Definition tickets_answered (E : Env) : Prop :=
  ∀ h url title body, is_Some (requests_post E h url title body).

(** The read of the manifest [file_name] is answered with an error status. *)
Definition manifest_missing (E : Env) (c : Client) (file_name : string) : bool :=
  match resource E c ("/contents/" +:+ file_name) with
  | Some r => is_error_status (status_code r)
  | None => false
  end.

(** ** The checks of a run, one by one *)

(** What a method does for the client [c] when it is called on its own:
    whether it returns, and what it logs. *)
Definition observe {A} (m : M A) (c : Client) : bool * list Event :=
  (is_ok (fst (m (mkState c []))), log (snd (m (mkState c [])))).

(** The method behind each status of [report_findings], lines 138-147. *)
Definition method_run (E : Env) (c : Client) (ck : Check) : bool * list Event :=
  match ck with
  | Documentation => observe (check_documentation E) c
  | Issues => observe (analyze_issues E) c
  | PullRequests => observe (analyze_pull_requests E) c
  | Dependencies => observe (check_dependencies E) c
  | Security => observe (check_security E) c
  | License => observe (check_license E) c
  | Contributing => observe (check_contributing_guidelines E) c
  | IssueTemplates => observe (check_issue_templates E) c
  | PRTemplates => observe (check_pull_request_templates E) c
  | Changelog => observe (check_changelog E) c
  end.

(** The log of the checks [cs] called one after the other for the client
    [c]: the call of a check, what its method logs, its return, and then
    the next check; the log ends with the first method that raises. *)
Fixpoint checks_log (E : Env) (c : Client) (cs : list Check) : list Event :=
  match cs with
  | [] => []
  | ck :: cs' =>
      EvEnter ck :: snd (method_run E c ck) ++
      (if fst (method_run E c ck) then EvLeave ck :: checks_log E c cs' else [])
  end.

Definition all_return (E : Env) (c : Client) (cs : list Check) : bool :=
  forallb (λ ck, fst (method_run E c ck)) cs.

(** The addresses read on a log, in order. *)
Definition reads_of (evs : list Event) : list string :=
  omap (λ e, match e with EvGet url _ => Some url | _ => None end) evs.

(** A computation whose result and whose additions to the log do not
    depend on what the log holds. *)
Definition ignores_log {A} (m : M A) : Prop :=
  ∀ c l,
    m (mkState c l)
    = (fst (m (mkState c [])),
       mkState (client (snd (m (mkState c [])))) (l ++ log (snd (m (mkState c []))))).

(** [m] runs the checks [cs]: its log is theirs, and it returns exactly
    when each of them does. *)
Definition runs_checks (E : Env) (cs : list Check) {A} (m : M A) : Prop :=
  ∀ c l,
    snd (m (mkState c l)) = mkState c (l ++ checks_log E c cs) ∧
    is_ok (fst (m (mkState c l))) = all_return E c cs.

(** ** The console *)

(** The texts printed on a log, in order. *)
Definition prints (evs : list Event) : list string :=
  omap (λ e, match e with EvPrint text => Some text | _ => None end) evs.

(** The line that [create_issue] prints for a reply, lines 192-195. *)
Definition ticket_line (E : Env) (title : string) (response : Response) : string :=
  if status_code response =? 201 then "Issue created: " +:+ title
  else "Failed to create issue: " +:+ repr_bytes E (content response).

(** The lines that the ticket requests of a log call for: one for each
    request that the platform answers. *)
Definition console (E : Env) (evs : list Event) : list string :=
  flat_map (λ e, match e with
                 | EvPost url h title body =>
                     match requests_post E h url title body with
                     | Some response => [ticket_line E title response]
                     | None => []
                     end
                 | _ => []
                 end) evs.

(** A computation that logs ticket requests and, for each one that is
    answered, its line. *)
Definition ticket_traffic (E : Env) (m : M unit) : Prop :=
  ∀ st, ∃ evs,
    log (snd (m st)) = log st ++ evs ∧
    Forall is_report_event evs ∧
    prints evs = console E evs.

(** * Properties *)

(** ** Strings *)

#[local] Arguments String.append !_ _ / : simpl nomatch.

Section StringFacts.

Lemma lower_append (a b : string) :
  PyStr.lower (a +:+ b) = PyStr.lower a +:+ PyStr.lower b.
Proof. induction a as [|x a IH]; simpl; [reflexivity | by rewrite IH]. Qed.

Lemma lower_append_inv (t a b : string) :
  PyStr.lower t = a +:+ b →
  ∃ a' b', t = a' +:+ b' ∧ PyStr.lower a' = a ∧ PyStr.lower b' = b.
Proof.
  revert t. induction a as [|x a IH]; intros t H.
  - exists "", t. auto.
  - destruct t as [|y t]; simpl in H; [discriminate|].
    injection H as Hx Ht.
    destruct (IH t Ht) as (a' & b' & -> & Ha & Hb).
    exists (String y a'), b'. simpl. by rewrite Hx, Ha.
Qed.

Lemma startswith_spec (p s : string) :
  PyStr.startswith p s = true ↔ ∃ post, s = p +:+ post.
Proof.
  revert s. induction p as [|a p IH]; intros s; simpl.
  - split; [intros _; by exists s | done].
  - destruct s as [|b s].
    + split; [done | intros [post H]; discriminate].
    + destruct (decide (a = b)) as [->|Hne].
      * rewrite IH. split; intros [post H]; exists post; congruence.
      * split; [done | intros [post H]; congruence].
Qed.

Lemma contains_spec (needle hay : string) :
  PyStr.contains needle hay = true ↔ ∃ pre post, hay = pre +:+ needle +:+ post.
Proof.
  induction hay as [|c hay IH]; simpl.
  - rewrite orb_false_r, startswith_spec. split.
    + intros [post H]. by exists "", post.
    + intros (pre & post & H). destruct pre; [by exists post | discriminate].
  - rewrite orb_true_iff, startswith_spec, IH. split.
    + intros [[post H] | (pre & post & H)].
      * by exists "", post.
      * exists (String c pre), post. simpl. by rewrite H.
    + intros (pre & post & H). destruct pre as [|x pre].
      * left. by exists post.
      * right. simpl in H. injection H as _ H. by exists pre, post.
Qed.

Lemma is_ascii_upper_spec (c : ascii) : PyStr.is_ascii_upper c = true ↔ is_capital c.
Proof.
  unfold PyStr.is_ascii_upper, is_capital.
  by rewrite andb_true_iff, !Nat.leb_le.
Qed.

Lemma lower_char_capital (c : ascii) :
  is_capital c → nat_of_ascii (PyStr.lower_char c) = (nat_of_ascii c + 32)%nat.
Proof.
  intros Hc. unfold PyStr.lower_char.
  rewrite (proj2 (is_ascii_upper_spec c) Hc).
  apply nat_ascii_embedding. unfold is_capital in Hc. lia.
Qed.

Lemma lower_char_other (c : ascii) : ¬ is_capital c → PyStr.lower_char c = c.
Proof.
  intros Hc. unfold PyStr.lower_char.
  destruct (PyStr.is_ascii_upper c) eqn:Hu; [|done].
  by apply is_ascii_upper_spec in Hu.
Qed.

Lemma nat_of_ascii_inj (a b : ascii) : nat_of_ascii a = nat_of_ascii b → a = b.
Proof.
  intros H. rewrite <- (ascii_nat_embedding a), <- (ascii_nat_embedding b).
  by rewrite H.
Qed.

Lemma is_capital_dec (c : ascii) : is_capital c ∨ ¬ is_capital c.
Proof. unfold is_capital. lia. Qed.

(** [lower] identifies exactly the characters that are the same letter. *)
Lemma lower_char_same (a b : ascii) :
  PyStr.lower_char a = PyStr.lower_char b ↔ same_letter a b.
Proof.
  unfold same_letter. split.
  - intros H. apply (f_equal nat_of_ascii) in H.
    destruct (is_capital_dec a) as [Ha|Ha], (is_capital_dec b) as [Hb|Hb].
    + rewrite !lower_char_capital in H by done. left. apply nat_of_ascii_inj. lia.
    + rewrite lower_char_capital, (lower_char_other b) in H by done. by right; left.
    + rewrite (lower_char_other a), lower_char_capital in H by done. by right; right.
    + rewrite !lower_char_other in H by done. left. by apply nat_of_ascii_inj.
  - intros [->|[[Ha Hb]|[Hb Ha]]]; [done|..]; apply nat_of_ascii_inj.
    + by rewrite lower_char_capital, lower_char_other
        by (unfold is_capital in *; lia).
    + by rewrite (lower_char_other a), lower_char_capital
        by (unfold is_capital in *; lia).
Qed.

Lemma lower_same (w k : string) : PyStr.lower w = PyStr.lower k ↔ same_text w k.
Proof.
  split.
  - revert k. induction w as [|a w IH]; intros [|b k] H; simpl in H; try discriminate.
    + constructor.
    + injection H as Hc Hs. constructor; [by apply lower_char_same | by apply IH].
  - induction 1 as [|a b s t Hab _ IH]; [done|]. simpl.
    by rewrite (proj2 (lower_char_same a b) Hab), IH.
Qed.

(** The substring test on lowered text decides [ci_occurs] for a keyword
    that is its own lower case. *)
Lemma flagged_spec (kw text : string) :
  PyStr.lower kw = kw →
  PyStr.contains kw (PyStr.lower text) = true ↔ ci_occurs kw text.
Proof.
  intros Hkw. rewrite contains_spec. unfold ci_occurs. split.
  - intros (pre & post & H).
    apply lower_append_inv in H as (pre' & rest & -> & Hpre & H).
    apply lower_append_inv in H as (w & post' & -> & Hw & Hpost).
    exists pre', w, post'. split; [done|]. apply lower_same. by rewrite Hkw.
  - intros (pre & w & post & -> & Hw). apply lower_same in Hw.
    exists (PyStr.lower pre), (PyStr.lower post).
    by rewrite !lower_append, Hw, Hkw.
Qed.

End StringFacts.

(** ** Computations that only read *)

Create HintDb reads discriminated.

Section Reads.

Variable E : Env.

Lemma fetch_data_run (url : string) (st : State) :
  fetch_data E url st =
  (fetch_outcome (requests_get E (headers (client st)) url), sent url st).
Proof.
  unfold fetch_data, bind, self, emit, sent, fetch_outcome, ret, raise; simpl.
  destruct (requests_get E (headers (client st)) url) as [r|]; [|done].
  destruct (status_code r =? 200); [done|].
  by destruct (is_error_status (status_code r)).
Qed.

Lemma reads_only_ret {A} (a : A) : reads_only (ret a).
Proof. intros [c l]. exists []. by rewrite app_nil_r. Qed.

Lemma reads_only_raise {A} (e : exn) : reads_only (@raise A e).
Proof. intros [c l]. exists []. by rewrite app_nil_r. Qed.

Lemma reads_only_lift {A} (r : Result A) : reads_only (lift r).
Proof. intros [c l]. exists []. by rewrite app_nil_r. Qed.

Lemma reads_only_self : reads_only self.
Proof. intros [c l]. exists []. by rewrite app_nil_r. Qed.

Lemma reads_only_bind {A B} (m : M A) (k : A → M B) :
  reads_only m → (∀ a, reads_only (k a)) → reads_only (bind m k).
Proof.
  intros Hm Hk st. unfold bind.
  destruct (Hm st) as (g1 & Hg1 & H1).
  destruct (m st) as [[a|e] st1]; simpl in H1; subst st1.
  - destruct (Hk a (mkState (client st) (log st ++ g1))) as (g2 & Hg2 & H2).
    exists (g1 ++ g2). split; [by apply Forall_app|].
    rewrite H2. simpl. by rewrite app_assoc.
  - by exists g1.
Qed.

Lemma reads_only_try {A} (body handler : M A) :
  reads_only body → reads_only handler → reads_only (try_except_HTTPError body handler).
Proof.
  intros Hb Hh st. unfold try_except_HTTPError.
  destruct (Hb st) as (g1 & Hg1 & H1).
  destruct (body st) as [[a|e] st1]; simpl in H1; subst st1.
  - by exists g1.
  - destruct e; try by exists g1.
    destruct (Hh (mkState (client st) (log st ++ g1))) as (g2 & Hg2 & H2).
    exists (g1 ++ g2). split; [by apply Forall_app|].
    rewrite H2. simpl. by rewrite app_assoc.
Qed.

Lemma reads_only_for_each {A B} (step : B → A → M B) (xs : list A) (acc : B) :
  (∀ b a, reads_only (step b a)) → reads_only (for_each xs acc step).
Proof.
  intros Hstep. revert acc. induction xs as [|x xs IH]; intros acc; simpl.
  - apply reads_only_ret.
  - apply reads_only_bind; auto.
Qed.

Lemma reads_only_fetch_data (url : string) : reads_only (fetch_data E url).
Proof.
  intros st. rewrite fetch_data_run. eexists. split; [|reflexivity].
  by repeat constructor.
Qed.

Lemma reads_only_fetch_data_at (u : json) : reads_only (fetch_data_at E u).
Proof.
  destruct u; simpl; try apply reads_only_raise. apply reads_only_fetch_data.
Qed.

#[local] Hint Resolve reads_only_ret reads_only_raise reads_only_lift reads_only_self
  reads_only_fetch_data reads_only_fetch_data_at : reads.

Ltac reads :=
  repeat first
    [ solve [auto with reads]
    | apply reads_only_bind; [|intros ?]
    | apply reads_only_try
    | apply reads_only_for_each; intros ? ?
    | match goal with |- reads_only (if ?b then _ else _) => destruct b end ].

Lemma reads_only_check_documentation : reads_only (check_documentation E).
Proof. unfold check_documentation. reads. Qed.

Lemma reads_only_analyze_issues : reads_only (analyze_issues E).
Proof. unfold analyze_issues, issue_step. reads. Qed.

Lemma reads_only_analyze_pull_requests : reads_only (analyze_pull_requests E).
Proof. unfold analyze_pull_requests, pull_step. reads. Qed.

Lemma reads_only_check_dependencies : reads_only (check_dependencies E).
Proof. unfold check_dependencies, dependency_step. reads. Qed.

Lemma reads_only_check_security : reads_only (check_security E).
Proof. unfold check_security. reads. Qed.

Lemma reads_only_check_license : reads_only (check_license E).
Proof. unfold check_license. reads. Qed.

Lemma reads_only_probe (path present missing : string) :
  reads_only (probe E path present missing).
Proof. unfold probe. reads. Qed.

End Reads.

(** ** Documentation check *)

Section DocumentationCheck.

Variable E : Env.

Lemma check_documentation_present st r content text :
  resource E (client st) "/readme" = Some r →
  status_code r = 200 →
  py_getitem (json_body r) "content" = Ok content →
  b64decode_utf8 E content = Ok text →
  check_documentation E st
  = (Ok (classify_readme text), sent (base_url (client st) +:+ "/readme") st).
Proof.
  unfold resource. intros Hr Hs Hc Hd.
  unfold check_documentation, bind, self, try_except_HTTPError. simpl.
  rewrite fetch_data_run, Hr. unfold fetch_outcome. rewrite Hs. simpl.
  unfold lift. by rewrite Hc, Hd.
Qed.

Lemma check_documentation_missing st r :
  resource E (client st) "/readme" = Some r →
  is_error_status (status_code r) = true →
  check_documentation E st
  = (Ok "README.md file is missing.", sent (base_url (client st) +:+ "/readme") st).
Proof.
  unfold resource. intros Hr Hs.
  unfold check_documentation, bind, self, try_except_HTTPError. simpl.
  rewrite fetch_data_run, Hr. unfold fetch_outcome. rewrite Hs.
  destruct (status_code r =? 200) eqn:H200; [|done].
  apply Z.eqb_eq in H200. rewrite H200 in Hs. discriminate.
Qed.

Lemma keyword_test (kw text : string) :
  kw ∈ essential_sections →
  PyStr.contains kw (PyStr.lower text) = true ↔ ci_occurs kw text.
Proof.
  intros Hkw. apply flagged_spec.
  unfold essential_sections in Hkw.
  repeat (apply elem_of_cons in Hkw as [->|Hkw]; [reflexivity|]).
  by apply elem_of_nil in Hkw.
Qed.

Lemma keyword_absent (kw text : string) :
  kw ∈ essential_sections →
  PyStr.contains kw (PyStr.lower text) = false ↔ ¬ ci_occurs kw text.
Proof.
  intros Hkw. rewrite <- (keyword_test kw text Hkw).
  by destruct (PyStr.contains kw (PyStr.lower text)).
Qed.

(** C4. A documentation text in which each of the five required keywords
    occurs, in any casing and at any place, is classified as complete: the
    Documentation Check answers that all essential sections are present. *)
Theorem documentation_complete st r content text :
  resource E (client st) "/readme" = Some r →
  status_code r = 200 →
  py_getitem (json_body r) "content" = Ok content →
  b64decode_utf8 E content = Ok text →
  Forall (λ kw, ci_occurs kw text) essential_sections →
  fst (check_documentation E st)
  = Ok "README.md is present and contains all essential sections.".
Proof.
  intros Hr Hs Hc Hd Hall.
  rewrite (check_documentation_present st r content text) by done. simpl.
  f_equal. unfold classify_readme.
  assert (missing_sections text = []) as ->; [|done].
  unfold essential_sections in Hall. rewrite !Forall_cons in Hall.
  destruct Hall as (H1 & H2 & H3 & H4 & H5 & _).
  apply flagged_spec in H1, H2, H3, H4, H5; try reflexivity.
  unfold missing_sections, essential_sections.
  by rewrite !filter_cons, filter_nil, H1, H2, H3, H4, H5.
Qed.

(** C5. A documentation text that lacks exactly the keywords license and
    changelog gets the message that names these two, license first. *)
Theorem documentation_names_missing st r content text :
  resource E (client st) "/readme" = Some r →
  status_code r = 200 →
  py_getitem (json_body r) "content" = Ok content →
  b64decode_utf8 E content = Ok text →
  missing_keywords_are text ["license"; "changelog"] →
  missing_sections text = ["license"; "changelog"] ∧
  fst (check_documentation E st)
  = Ok "README.md is present but missing sections: license, changelog.".
Proof.
  intros Hr Hs Hc Hd Hm.
  assert (missing_sections text = ["license"; "changelog"]) as Hms.
  { assert (∀ kw, kw ∈ essential_sections →
              PyStr.contains kw (PyStr.lower text)
              = negb (bool_decide (kw ∈ ["license"; "changelog"]))) as Hkw.
    { intros kw Hin. specialize (Hm kw Hin).
      rewrite <- keyword_absent in Hm by done.
      destruct (PyStr.contains kw (PyStr.lower text));
        case_bool_decide as Hms; simpl; try reflexivity; exfalso.
      - apply Hm in Hms. discriminate.
      - apply Hms, Hm. reflexivity. }
    unfold missing_sections, essential_sections.
    rewrite !filter_cons, filter_nil.
    rewrite !Hkw by (unfold essential_sections; repeat constructor).
    reflexivity. }
  split; [done|].
  rewrite (check_documentation_present st r content text) by done. simpl.
  unfold classify_readme. by rewrite Hms.
Qed.

End DocumentationCheck.

(** ** Dependency manifest check *)

Section DependencyCheck.

Variable E : Env.

Lemma is_error_status_spec (s : Z) : is_error_status s = true ↔ 400 ≤ s < 600.
Proof. unfold is_error_status. rewrite andb_true_iff, Z.leb_le, Z.ltb_lt. lia. Qed.

Lemma fetch_data_error st url r :
  requests_get E (headers (client st)) url = Some r →
  is_error_status (status_code r) = true →
  fst (fetch_data E url st) = Raise (HTTPError (status_code r)).
Proof.
  intros Hr Hs. rewrite fetch_data_run, Hr. simpl. rewrite Hs.
  apply is_error_status_spec in Hs.
  destruct (status_code r =? 200) eqn:H200; [|done]. lia.
Qed.

Lemma dependency_step_run st acc file_name r :
  resource E (client st) ("/contents/" +:+ file_name) = Some r →
  dependency_step E acc file_name st
  = (Ok (acc ++ [manifest_verdict file_name r]),
     sent (base_url (client st) +:+ "/contents/" +:+ file_name) st).
Proof.
  unfold resource, manifest_verdict. intros Hr.
  unfold dependency_step, bind, self, try_except_HTTPError. simpl in *.
  rewrite fetch_data_run, Hr. unfold fetch_outcome.
  destruct (is_error_status (status_code r)) eqn:Hs.
  - apply is_error_status_spec in Hs.
    destruct (status_code r =? 200) eqn:H200; [lia|done].
  - by destruct (status_code r =? 200).
Qed.

Lemma dependency_loop files st acc :
  Forall (λ f, is_Some (resource E (client st) ("/contents/" +:+ f))) files →
  ∃ statuses st',
    for_each files acc (dependency_step E) st = (Ok (acc ++ statuses), st') ∧
    client st' = client st ∧
    Forall2 (λ f m, ∃ r, resource E (client st) ("/contents/" +:+ f) = Some r ∧
                         m = manifest_verdict f r) files statuses.
Proof.
  intros Hall. revert st acc Hall.
  induction files as [|f files IH]; intros st acc Hall; simpl.
  - exists [], st. by rewrite app_nil_r.
  - apply Forall_cons in Hall as [[r Hr] Hall].
    unfold bind. rewrite (dependency_step_run st acc f r Hr).
    destruct (IH (sent (base_url (client st) +:+ "/contents/" +:+ f) st)
                 (acc ++ [manifest_verdict f r]) Hall)
      as (statuses & st' & Hrun & Hc & H2).
    exists (manifest_verdict f r :: statuses), st'.
    rewrite Hrun, <- app_assoc. repeat split; [done|].
    constructor; [by exists r | done].
Qed.

(** C1, as the code has it.  A fetch that is answered with a 4xx or 5xx
    status fails with an error that carries the status.  For every manifest
    path whose read is answered, a 4xx or 5xx status yields "missing" and a
    2xx status yields "needs further analysis", and no other classification
    is possible. *)
Theorem manifest_classification st :
  (∀ url r,
     requests_get E (headers (client st)) url = Some r →
     400 ≤ status_code r < 600 →
     fst (fetch_data E url st) = Raise (HTTPError (status_code r))) ∧
  (Forall (λ f, is_Some (resource E (client st) ("/contents/" +:+ f))) manifest_files →
   ∃ statuses,
     fst (check_dependencies E st) = Ok statuses ∧
     Forall2 (λ f m,
       ∃ r, resource E (client st) ("/contents/" +:+ f) = Some r ∧
         (400 ≤ status_code r < 600 → m = missing_message f) ∧
         (200 ≤ status_code r < 300 → m = found_message f) ∧
         (m = missing_message f ∨ m = found_message f))
       manifest_files statuses).
Proof.
  split.
  { intros url r Hr Hs. apply fetch_data_error; [done|].
    by apply is_error_status_spec. }
  intros Hall.
  destruct (dependency_loop manifest_files st [] Hall) as (statuses & st' & Hrun & _ & H2).
  exists statuses. unfold check_dependencies. rewrite Hrun. split; [done|].
  eapply Forall2_impl; [exact H2|]. simpl.
  intros f m (r & Hr & ->). exists r. split; [done|].
  unfold manifest_verdict. repeat split.
  - intros Hs. apply is_error_status_spec in Hs. by rewrite Hs.
  - intros Hs. destruct (is_error_status (status_code r)) eqn:He; [|done].
    apply is_error_status_spec in He. lia.
  - destruct (is_error_status (status_code r)); auto.
Qed.

End DependencyCheck.

Lemma manifest_classification_witness :
  Forall (λ f, is_Some (resource nothing_found (client demo_state) ("/contents/" +:+ f)))
         manifest_files ∧
  ∃ statuses,
    fst (check_dependencies nothing_found demo_state) = Ok statuses ∧
    Forall2 (λ f m,
      ∃ r, resource nothing_found (client demo_state) ("/contents/" +:+ f) = Some r ∧
        (400 ≤ status_code r < 600 → m = missing_message f) ∧
        (200 ≤ status_code r < 300 → m = found_message f) ∧
        (m = missing_message f ∨ m = found_message f))
      manifest_files statuses.
Proof.
  assert (Forall (λ f, is_Some (resource nothing_found (client demo_state)
                                  ("/contents/" +:+ f))) manifest_files) as H.
  { repeat constructor; vm_compute; eauto. }
  split; [exact H|].
  exact (proj2 (manifest_classification nothing_found demo_state) H).
Defined.

(** C1 as stated fails on a status that is neither a success nor an error:
    a manifest read answered 304 is not a 2xx answer, yet the file is
    classified "needs further analysis", and [fetch_data] does not fail but
    returns [None]. *)
Lemma manifest_not_modified_counterexample :
  resource not_modified demo_client "/contents/package.json" = Some (answer 304 JNull) ∧
  ¬ (200 ≤ status_code (answer 304 JNull) < 300) ∧
  fst (check_dependencies not_modified demo_state)
  = Ok [found_message "package.json"; found_message "requirements.txt"] ∧
  found_message "package.json" ≠ missing_message "package.json" ∧
  fst (fetch_data not_modified (demo_url "/contents/package.json") demo_state) = Ok JNull.
Proof.
  split; [reflexivity|]. split; [simpl; lia|].
  split; [reflexivity|]. split; [discriminate|reflexivity].
Qed.

(** ** The checking phase *)

Section CheckingPhase.

Variable E : Env.

Lemma marks_app (a b : list Event) : marks (a ++ b) = marks a ++ marks b.
Proof. apply omap_app. Qed.

Lemma tickets_app (a b : list Event) : tickets (a ++ b) = tickets a ++ tickets b.
Proof. apply omap_app. Qed.

Lemma marks_gets (gets : list Event) : Forall is_get gets → marks gets = [].
Proof.
  induction 1 as [|e gets He _ IH]; [done|].
  by destruct e.
Qed.

Lemma tickets_check_events (evs : list Event) :
  Forall is_check_event evs → tickets evs = [].
Proof.
  induction 1 as [|e evs He _ IH]; [done|].
  by destruct e.
Qed.

Lemma marks_report_events (evs : list Event) :
  Forall is_report_event evs → marks evs = [].
Proof.
  induction 1 as [|e evs He _ IH]; [done|].
  by destruct e.
Qed.

Lemma gets_are_check_events (gets : list Event) :
  Forall is_get gets → Forall is_check_event gets.
Proof. intros H. eapply Forall_impl; [exact H|]. by intros []. Qed.

Lemma checks_run_ret {A} (a : A) : checks_run [] (ret a).
Proof. intros [c l]. exists []. simpl. by rewrite app_nil_r. Qed.

Lemma checks_run_call {A B} (c : Check) (cs : list Check) (m : M A) (k : A → M B) :
  reads_only m → (∀ a, checks_run cs (k a)) → checks_run (c :: cs) (bind (call c m) k).
Proof.
  intros Hm Hk st. unfold call, emit, ret, bind. simpl.
  destruct (Hm (mkState (client st) (log st ++ [EvEnter c]))) as (gets & Hg & Hsnd).
  destruct (m (mkState (client st) (log st ++ [EvEnter c]))) as [[a|e] st1];
    simpl in Hsnd; subst st1; simpl.
  - destruct (Hk a (mkState (client st) (((log st ++ [EvEnter c]) ++ gets) ++ [EvLeave c])))
      as (rest & Hrest & Htr).
    exists (EvEnter c :: gets ++ EvLeave c :: rest). split.
    + rewrite Hrest. simpl. f_equal. rewrite <- !app_assoc. reflexivity.
    + exists gets. split; [done|]. left. by exists rest.
  - exists (EvEnter c :: gets). split.
    + f_equal. by rewrite <- app_assoc.
    + exists gets. split; [done|]. by right.
Qed.

Lemma run_checks_trace : checks_run check_order (run_checks E).
Proof.
  unfold run_checks, check_order, check_contributing_guidelines, check_issue_templates,
    check_pull_request_templates, check_changelog.
  repeat (apply checks_run_call;
          [ first [ apply reads_only_check_documentation
                  | apply reads_only_analyze_issues
                  | apply reads_only_analyze_pull_requests
                  | apply reads_only_check_dependencies
                  | apply reads_only_check_security
                  | apply reads_only_check_license
                  | apply reads_only_probe ]
          | intros ? ]).
  apply checks_run_ret.
Qed.

Lemma checks_trace_marks (cs : list Check) (ok : bool) (evs : list Event) :
  checks_trace cs ok evs →
  marks evs `prefix_of` schedule cs ∧
  (ok = true → marks evs = schedule cs) ∧
  Forall is_check_event evs.
Proof.
  revert evs. induction cs as [|c cs IH]; intros evs; simpl.
  - intros [_ ->]. by repeat split.
  - intros (gets & Hg & [(rest & -> & Hrest) | [-> ->]]).
    + destruct (IH rest Hrest) as (Hp & Hall & Hev).
      change (EvEnter c :: gets ++ EvLeave c :: rest)
        with ([EvEnter c] ++ gets ++ [EvLeave c] ++ rest).
      rewrite !marks_app, (marks_gets gets Hg). simpl.
      split; [by do 2 apply prefix_cons|].
      split; [intros Hok; by rewrite (Hall Hok)|].
      constructor; [done|]. apply Forall_app. split; [by apply gets_are_check_events|].
      by constructor.
    + change (EvEnter c :: gets) with ([EvEnter c] ++ gets).
      rewrite marks_app, (marks_gets gets Hg). simpl.
      split; [apply prefix_cons, prefix_nil|].
      split; [done|].
      constructor; [done|]. by apply gets_are_check_events.
Qed.

(** The checks leave the client as it is, whether they all return or one
    of them raises. *)
Lemma run_checks_client st : client (snd (run_checks E st)) = client st.
Proof. destruct (run_checks_trace st) as (evs & -> & _). reflexivity. Qed.

End CheckingPhase.

(** ** The reporting phase *)

Section ReportingPhase.

Variable E : Env.

Lemma frame_refl (c : Client) : frame c c.
Proof. unfold frame. auto. Qed.

Lemma frame_trans (c1 c2 c3 : Client) : frame c1 c2 → frame c2 c3 → frame c1 c3.
Proof.
  intros (Ht & Hr & Hb & Hh) (Ht' & Hr' & Hb' & Hh'). unfold frame.
  repeat split; try congruence.
  destruct Hh as [Hh|Hh], Hh' as [Hh'|Hh']; rewrite Hh', Hh; auto.
  right. apply insert_insert_eq.
Qed.

(** [create_issue], step by step: the headers are updated, the ticket is
    posted with the updated headers, and the reply decides what is printed. *)
Lemma create_issue_run (title body : string) (st : State) :
  let c := client st in
  let c' := mkClient (token c) (repo_name c) (base_url c)
                     (<["Accept" := accept]> (headers c)) in
  let url := base_url c +:+ "/issues" in
  let posted := log st ++ [EvPost url (headers c') title body] in
  create_issue E title body st =
  match requests_post E (headers c') url title body with
  | None => (Raise RequestException, mkState c' posted)
  | Some response =>
      (Ok tt,
       mkState c' (posted ++
         [EvPrint (if status_code response =? 201
                   then "Issue created: " +:+ title
                   else "Failed to create issue: " +:+ repr_bytes E (content response))]))
  end.
Proof.
  unfold create_issue, update_headers, self, emit, print, emit, raise, bind. simpl.
  destruct (requests_post E _ _ title body) as [response|]; [|done].
  by destruct (status_code response =? 201).
Qed.

Lemma submits_create_issue (title body : string) :
  submits [(title, body)] (create_issue E title body).
Proof.
  intros st. rewrite create_issue_run. simpl.
  destruct (requests_post E _ _ title body) as [response|]; simpl.
  - eexists [_; _], _. rewrite <- app_assoc. split; [reflexivity|].
    split; [unfold frame; simpl; auto|].
    split; [by repeat constructor|]. split; [done|]. split; [done|]. by left.
  - eexists [_], _. split; [reflexivity|].
    split; [unfold frame; simpl; auto|].
    split; [by repeat constructor|]. split; [done|]. split; [done|]. by right.
Qed.

Lemma submits_when (b : bool) (title body : string) :
  submits (ticket_if b title body) (when b (create_issue E title body)).
Proof.
  destruct b; simpl; [apply submits_create_issue|].
  intros [c l]. exists [], c. simpl. rewrite app_nil_r.
  split; [done|]. split; [apply frame_refl|].
  split; [done|]. split; [done|]. split; [done|]. by left.
Qed.

Lemma submits_seq (p1 p2 : list (string * string)) (m k : M unit) :
  submits p1 m → submits p2 k → submits (p1 ++ p2) (m ;;; k).
Proof.
  intros Hm Hk st. unfold bind.
  destruct (Hm st) as (e1 & c1 & Hs1 & Hf1 & He1 & Hp1 & Hok1 & Hne1).
  destruct (m st) as [[[]|e] st1]; simpl in Hs1; subst st1.
  - destruct (Hk (mkState c1 (log st ++ e1)))
      as (e2 & c2 & Hs2 & Hf2 & He2 & Hp2 & Hok2 & Hne2).
    exists (e1 ++ e2), c2. rewrite Hs2. simpl. rewrite <- app_assoc.
    split; [done|]. split; [by eapply frame_trans|].
    split; [by apply Forall_app|].
    rewrite tickets_app, (Hok1 eq_refl).
    split; [by apply prefix_app|].
    split; [intros Hok; by rewrite (Hok2 Hok)|].
    destruct Hne2 as [Hok|Hne]; [by left|right].
    intros Hnil. by apply app_eq_nil in Hnil as [_ Hnil].
  - exists e1, c1. simpl. split; [done|]. split; [done|]. split; [done|].
    split; [by apply prefix_app_r|]. split; [done|].
    destruct Hne1 as [Hok|Hne]; [discriminate|by right].
Qed.

Lemma remediate_submits (s : Statuses) : submits (planned_tickets s) (remediate E s).
Proof.
  unfold planned_tickets, remediate.
  repeat (apply submits_seq; [apply submits_when|]). apply submits_when.
Qed.

Lemma ticket_if_titles (b : bool) (title body : string) (ts : list string)
    (rest : list (string * string)) :
  map fst rest `sublist_of` ts →
  map fst (ticket_if b title body ++ rest) `sublist_of` title :: ts.
Proof.
  intros H. destruct b; simpl; [by apply sublist_skip | by apply sublist_cons].
Qed.

(** The titles of the planned tickets follow the order of the predicates. *)
Lemma planned_titles (s : Statuses) : map fst (planned_tickets s) `sublist_of` ticket_order.
Proof.
  unfold planned_tickets, ticket_order.
  repeat apply ticket_if_titles.
  rewrite <- (app_nil_r (ticket_if _ _ _)). apply ticket_if_titles. constructor.
Qed.

(** A run of [report_findings]: the checks, then the report, then the
    remediation; or the checks up to the one that raised. *)
Lemma report_findings_run (st : State) :
  ∃ evs,
    snd (run_checks E st) = mkState (client st) (log st ++ evs) ∧
    checks_trace check_order (is_ok (fst (run_checks E st))) evs ∧
    match fst (run_checks E st) with
    | Ok s =>
        report_findings E st
        = remediate E s
            (mkState (client st)
               (log st ++ evs ++ [EvPrint (render_report (repo_name (client st)) s)]))
    | Raise e =>
        report_findings E st = (Raise e, mkState (client st) (log st ++ evs))
    end.
Proof.
  destruct (run_checks_trace E st) as (evs & Hsnd & Htr).
  exists evs. split; [done|]. split; [done|].
  unfold report_findings, bind, self, print, emit.
  destruct (run_checks E st) as [[s|e] st1]; simpl in *; subst st1; simpl.
  - by rewrite <- app_assoc.
  - done.
Qed.

End ReportingPhase.

(** ** Computations that do not look at the log *)

Section LogIndependence.

Variable E : Env.

Lemma ignores_ret {A} (a : A) : ignores_log (ret a).
Proof. intros c l. unfold ret. simpl. by rewrite app_nil_r. Qed.

Lemma ignores_raise {A} (e : exn) : ignores_log (@raise A e).
Proof. intros c l. unfold raise. simpl. by rewrite app_nil_r. Qed.

Lemma ignores_lift {A} (r : Result A) : ignores_log (lift r).
Proof. intros c l. unfold lift. simpl. by rewrite app_nil_r. Qed.

Lemma ignores_self : ignores_log self.
Proof. intros c l. unfold self. simpl. by rewrite app_nil_r. Qed.

Lemma ignores_bind {A B} (m : M A) (k : A → M B) :
  ignores_log m → (∀ a, ignores_log (k a)) → ignores_log (bind m k).
Proof.
  intros Hm Hk c l. unfold bind. rewrite (Hm c l).
  destruct (m (mkState c [])) as [[a|e] [c1 l1]]; simpl; [|done].
  rewrite (Hk a c1 (l ++ l1)), (Hk a c1 l1).
  destruct (k a (mkState c1 [])) as [r [c2 l2]]. simpl. by rewrite app_assoc.
Qed.

Lemma ignores_try {A} (body handler : M A) :
  ignores_log body → ignores_log handler →
  ignores_log (try_except_HTTPError body handler).
Proof.
  intros Hb Hh c l. unfold try_except_HTTPError. rewrite (Hb c l).
  destruct (body (mkState c [])) as [[a|e] [c1 l1]]; simpl; [done|].
  destruct e; try done.
  rewrite (Hh c1 (l ++ l1)), (Hh c1 l1).
  destruct (handler (mkState c1 [])) as [r [c2 l2]]. simpl. by rewrite app_assoc.
Qed.

Lemma ignores_for_each {A B} (step : B → A → M B) (xs : list A) (acc : B) :
  (∀ b a, ignores_log (step b a)) → ignores_log (for_each xs acc step).
Proof.
  intros Hstep. revert acc. induction xs as [|x xs IH]; intros acc; simpl.
  - apply ignores_ret.
  - apply ignores_bind; auto.
Qed.

Lemma ignores_fetch_data (url : string) : ignores_log (fetch_data E url).
Proof. intros c l. by rewrite !fetch_data_run. Qed.

Lemma ignores_fetch_data_at (u : json) : ignores_log (fetch_data_at E u).
Proof. destruct u; simpl; try apply ignores_raise. apply ignores_fetch_data. Qed.

Create HintDb blind discriminated.

#[local] Hint Resolve ignores_ret ignores_raise ignores_lift ignores_self
  ignores_fetch_data ignores_fetch_data_at : blind.

Ltac blind :=
  repeat first
    [ solve [auto with blind]
    | apply ignores_bind; [|intros ?]
    | apply ignores_try
    | apply ignores_for_each; intros ? ?
    | match goal with |- ignores_log (if ?b then _ else _) => destruct b end ].

Lemma ignores_check_documentation : ignores_log (check_documentation E).
Proof. unfold check_documentation. blind. Qed.

Lemma ignores_analyze_issues : ignores_log (analyze_issues E).
Proof. unfold analyze_issues, issue_step. blind. Qed.

Lemma ignores_analyze_pull_requests : ignores_log (analyze_pull_requests E).
Proof. unfold analyze_pull_requests, pull_step. blind. Qed.

Lemma ignores_check_dependencies : ignores_log (check_dependencies E).
Proof. unfold check_dependencies, dependency_step. blind. Qed.

Lemma ignores_check_security : ignores_log (check_security E).
Proof. unfold check_security. blind. Qed.

Lemma ignores_check_license : ignores_log (check_license E).
Proof. unfold check_license. blind. Qed.

Lemma ignores_probe (path present missing : string) :
  ignores_log (probe E path present missing).
Proof. unfold probe. blind. Qed.

(** A check on the log of a run is the check on its own. *)
Lemma check_in_run {A} (m : M A) (c : Client) (l : list Event) :
  reads_only m → ignores_log m →
  m (mkState c l) = (fst (m (mkState c [])), mkState c (l ++ snd (observe m c))).
Proof.
  intros Hr Hb. rewrite (Hb c l). unfold observe. simpl.
  destruct (Hr (mkState c [])) as (gets & _ & Hsnd). by rewrite Hsnd.
Qed.

Lemma runs_checks_ret {A} (a : A) : runs_checks E [] (ret a).
Proof. intros c l. unfold ret. simpl. by rewrite app_nil_r. Qed.

Lemma runs_checks_call {A B} (ck : Check) (cs : list Check) (m : M A) (k : A → M B) :
  reads_only m → ignores_log m →
  (∀ c, method_run E c ck = observe m c) →
  (∀ a, runs_checks E cs (k a)) →
  runs_checks E (ck :: cs) (bind (call ck m) k).
Proof.
  intros Hr Hb Hm Hk c l.
  unfold call, emit, ret, bind. simpl.
  rewrite (check_in_run m c (l ++ [EvEnter ck]) Hr Hb), Hm.
  unfold observe. simpl.
  destruct (fst (m (mkState c []))) as [a|e]; simpl.
  - rewrite <- !app_assoc. simpl.
    destruct (Hk a c (l ++ EvEnter ck :: log (snd (m (mkState c []))) ++ [EvLeave ck]))
      as [Hsnd Hok].
    rewrite Hsnd, Hok. split; [|done]. f_equal.
    rewrite <- !app_assoc. simpl. by rewrite <- app_assoc.
  - rewrite app_nil_r. by rewrite <- app_assoc.
Qed.

Lemma run_checks_log : runs_checks E check_order (run_checks E).
Proof.
  unfold run_checks, check_order.
  apply runs_checks_call;
    [apply reads_only_check_documentation | apply ignores_check_documentation | done |].
  intros ?. apply runs_checks_call;
    [apply reads_only_analyze_issues | apply ignores_analyze_issues | done |].
  intros ?. apply runs_checks_call;
    [apply reads_only_analyze_pull_requests | apply ignores_analyze_pull_requests | done |].
  intros ?. apply runs_checks_call;
    [apply reads_only_check_dependencies | apply ignores_check_dependencies | done |].
  intros ?. apply runs_checks_call;
    [apply reads_only_check_security | apply ignores_check_security | done |].
  intros ?. apply runs_checks_call;
    [apply reads_only_check_license | apply ignores_check_license | done |].
  intros ?. apply runs_checks_call; [apply reads_only_probe | apply ignores_probe | done |].
  intros ?. apply runs_checks_call; [apply reads_only_probe | apply ignores_probe | done |].
  intros ?. apply runs_checks_call; [apply reads_only_probe | apply ignores_probe | done |].
  intros ?. apply runs_checks_call; [apply reads_only_probe | apply ignores_probe | done |].
  intros ?. apply runs_checks_ret.
Qed.

Lemma reads_of_app (a b : list Event) : reads_of (a ++ b) = reads_of a ++ reads_of b.
Proof. apply omap_app. Qed.

Lemma reads_of_report_events (evs : list Event) :
  Forall is_report_event evs → reads_of evs = [].
Proof.
  induction 1 as [|e evs He _ IH]; [done|].
  destruct e; simpl in *; try done.
Qed.

(** The reads of the checks that all return are the reads of their
    methods, one method after the other. *)
Lemma checks_log_reads (c : Client) (cs : list Check) :
  all_return E c cs = true →
  reads_of (checks_log E c cs) = flat_map (λ ck, reads_of (snd (method_run E c ck))) cs.
Proof.
  induction cs as [|ck cs IH]; [done|]. simpl.
  intros Hall. apply andb_true_iff in Hall as [Hck Hall]. rewrite Hck.
  change (EvEnter ck :: ?l) with ([EvEnter ck] ++ l).
  rewrite !reads_of_app. simpl. by rewrite (IH Hall).
Qed.

End LogIndependence.

(** ** Order of a run *)

Section AuditOrder.

Variable E : Env.

Lemma split_behind {A} (P : A → Prop) (l1 l2 pre post : list A) (e : A) :
  l1 ++ l2 = pre ++ e :: post → Forall P l1 → ¬ P e →
  ∃ pre2, pre = l1 ++ pre2 ∧ l2 = pre2 ++ e :: post.
Proof.
  revert pre. induction l1 as [|x l1 IH]; intros pre Heq Hall He; simpl in *.
  - by exists pre.
  - apply Forall_cons in Hall as [Hx Hall].
    destruct pre as [|y pre]; simpl in Heq; injection Heq as -> Heq; [done|].
    destruct (IH pre Heq Hall He) as (pre2 & -> & ->). by exists pre2.
Qed.

(** The calls and returns on the log of a run, and its tickets. *)
Lemma run_marks (c : Client) :
  let run := report_findings E (mkState c []) in
  let evs := log (snd run) in
  marks evs `prefix_of` schedule check_order ∧
  (fst run = Ok tt → marks evs = schedule check_order) ∧
  (∀ pre e post, evs = pre ++ e :: post → is_post e →
     marks pre = schedule check_order ∧ Forall is_report_event post) ∧
  map fst (tickets evs) `sublist_of` ticket_order.
Proof.
  simpl.
  destruct (report_findings_run E (mkState c [])) as (cevs & _ & Htr & Hrun).
  destruct (checks_trace_marks _ _ _ Htr) as (Hp & Hall & Hev). clear Htr.
  destruct (fst (run_checks E (mkState c []))) as [s|e]; rewrite Hrun; simpl in *.
  - clear Hp. specialize (Hall eq_refl).
    destruct (remediate_submits E s
                (mkState c (cevs ++ [EvPrint (render_report (repo_name c) s)])))
      as (revs & c' & -> & _ & Hrep & Hpre & Hok & _). simpl.
    assert (Forall is_report_event (EvPrint (render_report (repo_name c) s) :: revs))
      as Hrep' by by constructor.
    rewrite <- app_assoc. simpl.
    rewrite marks_app, (marks_report_events _ Hrep'), app_nil_r, Hall.
    split; [done|]. split; [done|]. split.
    + intros pre e post Heq He.
      destruct (split_behind is_check_event _ _ _ _ _ Heq Hev) as (pre2 & -> & Hsplit).
      { destruct e; simpl in He |- *; tauto. }
      rewrite Hsplit in Hrep'. apply Forall_app in Hrep' as [Hpre2 Hpost].
      apply Forall_cons in Hpost as [_ Hpost].
      by rewrite marks_app, (marks_report_events _ Hpre2), app_nil_r, Hall.
    + rewrite tickets_app, (tickets_check_events _ Hev). simpl.
      etrans; [|apply (planned_titles s)].
      destruct Hpre as [k ->]. rewrite fmap_app. by apply sublist_inserts_r.
  - split; [done|]. split; [done|]. split.
    + intros pre e' post -> He.
      apply Forall_app in Hev as [_ Hev]. apply Forall_cons in Hev as [Hev _].
      by destruct e'.
    + rewrite (tickets_check_events _ Hev). apply sublist_nil_l.
Qed.

(** The log of a run: the checks, then the report and the tickets. *)
Lemma run_phases (c : Client) :
  ∃ revs,
    log (snd (report_findings E (mkState c []))) = checks_log E c check_order ++ revs ∧
    Forall is_report_event revs ∧
    (revs ≠ [] → all_return E c check_order = true) ∧
    is_ok (fst (run_checks E (mkState c []))) = all_return E c check_order.
Proof.
  destruct (report_findings_run E (mkState c [])) as (cevs & Hsnd & _ & Hrun).
  destruct (run_checks_log E c []) as [Hlog Hok].
  set (cl := checks_log E c check_order) in *.
  set (ar := all_return E c check_order) in *. clearbody cl ar.
  rewrite Hlog in Hsnd. simpl in Hsnd. injection Hsnd as <-. clear Hlog.
  rewrite <- Hok. clear Hok.
  destruct (fst (run_checks E (mkState c []))) as [s|e]; simpl in Hrun; rewrite Hrun;
    clear Hrun.
  - destruct (remediate_submits E s
                (mkState c (cl ++ [EvPrint (render_report (repo_name c) s)])))
      as (revs & c' & -> & _ & Hrep & _).
    exists (EvPrint (render_report (repo_name c) s) :: revs).
    split; [simpl; by rewrite <- app_assoc|]. split; [by constructor|]. done.
  - exists []. split; [simpl; by rewrite app_nil_r|]. split; [done|]. done.
Qed.

(** C3. The log of a run is, first, the log of the ten checks in the
    fixed order: Documentation, Issues, Pull Requests, Dependencies,
    Security, License, Contributing, Issue Templates, PR Templates and
    Changelog; for each one the call, then exactly what its method logs
    when it is run on its own for the client, then the return, up to the
    first method that raises.  Only report events follow, and only when
    all ten methods return.  So the requests of a run in which all checks
    return are those of [check_documentation], then those of
    [analyze_issues], and so on to [check_changelog]; a ticket is submitted
    only after all ten checks have returned, after which no check event
    occurs; and the submitted tickets follow the order of the remediation
    predicates. *)
Theorem audit_order (c : Client) :
  let run := report_findings E (mkState c []) in
  let evs := log (snd run) in
  (∃ revs,
     evs = checks_log E c check_order ++ revs ∧
     Forall is_report_event revs ∧
     (revs ≠ [] → all_return E c check_order = true)) ∧
  (all_return E c check_order = false → is_ok (fst run) = false) ∧
  (all_return E c check_order = true →
   reads_of evs = flat_map (λ ck, reads_of (snd (method_run E c ck))) check_order) ∧
  marks evs `prefix_of` schedule check_order ∧
  (fst run = Ok tt → marks evs = schedule check_order) ∧
  (∀ pre e post, evs = pre ++ e :: post → is_post e →
     marks pre = schedule check_order ∧ Forall is_report_event post ∧
     checks_log E c check_order `prefix_of` pre ∧
     all_return E c check_order = true) ∧
  map fst (tickets evs) `sublist_of` ticket_order.
Proof.
  cbv zeta.
  destruct (run_marks c) as (Hpre & Hdone & Hpost & Htitles). cbv zeta in *.
  destruct (run_phases c) as (revs & Hlog & Hrevs & Hreturn & Hok).
  split; [by exists revs|]. split; [|split; [|split; [done|split; [done|split; [|done]]]]].
  - intros Hall. rewrite Hall in Hok.
    destruct (report_findings_run E (mkState c [])) as (cevs & _ & _ & Hrun).
    destruct (fst (run_checks E (mkState c []))) as [s|e]; [discriminate|].
    by rewrite Hrun.
  - intros Hall.
    by rewrite Hlog, reads_of_app, (reads_of_report_events revs Hrevs), app_nil_r,
      (checks_log_reads E c check_order Hall).
  - intros pre e post Heq He.
    destruct (Hpost pre e post Heq He) as [Hm Hp]. split; [done|]. split; [done|].
    rewrite Hlog in Heq.
    assert (Forall is_check_event (checks_log E c check_order)) as Hchecks.
    { destruct (report_findings_run E (mkState c [])) as (cevs & Hsnd & Htr & _).
      destruct (run_checks_log E c []) as [Hlog' _].
      destruct (checks_trace_marks _ _ _ Htr) as (_ & _ & Hev). clear Htr.
      set (cl := checks_log E c check_order) in *. clearbody cl.
      rewrite Hlog' in Hsnd. simpl in Hsnd. by injection Hsnd as <-. }
    destruct (split_behind is_check_event _ _ _ _ _ Heq Hchecks) as (pre2 & -> & Hsplit).
    { destruct e; simpl in He |- *; tauto. }
    split; [by apply prefix_app_r|]. apply Hreturn. rewrite Hsplit.
    by destruct pre2.
Qed.

End AuditOrder.

Lemma audit_order_witness :
  all_return bare_repository demo_client check_order = true ∧
  reads_of (log (snd (report_findings bare_repository demo_state)))
  = map demo_url
      ["/readme"; "/issues?state=open"; "/pulls?state=open";
       "/contents/package.json"; "/contents/requirements.txt";
       "/vulnerability-alerts"; "/license"; "/contents/CONTRIBUTING.md";
       "/contents/.github/ISSUE_TEMPLATE/";
       "/contents/.github/PULL_REQUEST_TEMPLATE.md"; "/contents/CHANGELOG.md"] ∧
  marks (log (snd (report_findings bare_repository demo_state))) = schedule check_order.
Proof.
  assert (all_return bare_repository demo_client check_order = true) as Hall
    by (vm_compute; reflexivity).
  assert (fst (report_findings bare_repository demo_state) = Ok tt) as Hok
    by (vm_compute; reflexivity).
  pose proof (audit_order bare_repository demo_client) as H. cbv zeta in H.
  destruct H as (_ & _ & Hreads & _ & Hmarks & _).
  split; [exact Hall|]. split; [|exact (Hmarks Hok)].
  etrans; [exact (Hreads Hall)|]. vm_compute. reflexivity.
Defined.

(** ** The client *)

Section ClientState.

Variable E : Env.

Lemma reads_keep_client {A} (m : M A) : reads_only m → keeps_client m.
Proof. intros Hm st. destruct (Hm st) as (gets & _ & ->). reflexivity. Qed.

Lemma report_findings_frame st : frame (client st) (client (snd (report_findings E st))).
Proof.
  destruct (report_findings_run E st) as (evs & _ & _ & Hrun).
  destruct (fst (run_checks E st)) as [s|e]; rewrite Hrun.
  - destruct (remediate_submits E s
                (mkState (client st)
                   (log st ++ evs ++ [EvPrint (render_report (repo_name (client st)) s)])))
      as (revs & c' & -> & Hf & _). exact Hf.
  - apply frame_refl.
Qed.

(** C2, as the code has it.  No check modifies any field of the client,
    and no operation modifies the token, the repository name or the base
    URL; ticket creation sets the [Accept] entry of the request headers
    and changes nothing else. *)
Theorem client_frame :
  ((∀ url, keeps_client (fetch_data E url)) ∧
   keeps_client (check_documentation E) ∧
   keeps_client (analyze_issues E) ∧
   keeps_client (analyze_pull_requests E) ∧
   keeps_client (check_dependencies E) ∧
   keeps_client (check_security E) ∧
   keeps_client (check_license E) ∧
   keeps_client (check_contributing_guidelines E) ∧
   keeps_client (check_issue_templates E) ∧
   keeps_client (check_pull_request_templates E) ∧
   keeps_client (check_changelog E) ∧
   keeps_client (run_checks E)) ∧
  (∀ title body st,
     let c := client st in
     client (snd (create_issue E title body st))
     = mkClient (token c) (repo_name c) (base_url c)
                (<["Accept" := accept]> (headers c))) ∧
  (∀ st, frame (client st) (client (snd (report_findings E st)))).
Proof.
  split; [|split].
  - repeat split;
      try (intros; apply reads_keep_client;
           first [ apply reads_only_fetch_data
                 | apply reads_only_check_documentation
                 | apply reads_only_analyze_issues
                 | apply reads_only_analyze_pull_requests
                 | apply reads_only_check_dependencies
                 | apply reads_only_check_security
                 | apply reads_only_check_license
                 | apply reads_only_probe ]).
    intros st. apply run_checks_client.
  - intros title body st. rewrite create_issue_run. simpl.
    by destruct (requests_post E _ _ title body).
  - apply report_findings_frame.
Qed.

End ClientState.

(** C2 as stated fails on ticket creation: the client built by [init] has
    no [Accept] header, and has one after a ticket was created, alone or at
    the end of an audit. *)
Lemma ticket_creation_counterexample :
  headers demo_client !! "Accept" = None ∧
  headers (client (snd (create_issue bare_repository
                          "Changelog missing" "Changelog is missing." demo_state)))
    !! "Accept" = Some accept ∧
  headers (client (snd (report_findings bare_repository demo_state)))
  ≠ headers demo_client.
Proof.
  split; [reflexivity|]. split; [reflexivity|].
  intros H. apply (f_equal (λ h : gmap string string, h !! "Accept")) in H.
  vm_compute in H. discriminate.
Qed.

(** ** Issue resolution check *)

Section IssueCheck.

Variable E : Env.

Lemma mentions_text (word : string) (comment : json) (body : string) :
  py_getitem comment "body" = Ok (JStr body) →
  mentions word comment = Ok (PyStr.contains word (PyStr.lower body)).
Proof. intros H. unfold mentions. by rewrite H. Qed.

Lemma py_any_text (word : string) (thread : list json) :
  PyStr.lower word = word →
  Forall text_comment thread →
  ∃ b, py_any (mentions word) thread = Ok b ∧
       (b = false ↔ Forall (silent_on word) thread).
Proof.
  intros Hw. induction 1 as [|comment thread [body Hbody] _ IH]; simpl.
  - exists false. by split.
  - rewrite (mentions_text word comment body Hbody).
    destruct (PyStr.contains word (PyStr.lower body)) eqn:Hc.
    + exists true. split; [done|]. split; [done|].
      intros Hs. apply Forall_cons in Hs as [(body' & Hbody' & Hno) _].
      rewrite Hbody in Hbody'. injection Hbody' as <-.
      exfalso. apply Hno. by apply flagged_spec.
    + destruct IH as (b & -> & Hb). exists b. split; [done|].
      rewrite Hb. split.
      * intros Hs. constructor; [|done]. exists body. split; [done|].
        intros Hocc. apply flagged_spec in Hocc; [|done]. congruence.
      * intros Hs. by apply Forall_cons in Hs as [_ Hs].
Qed.

Lemma serves_thread (c : Client) (issue : json) (t1 t2 : list json) :
  serves E c issue t1 → serves E c issue t2 → t1 = t2.
Proof.
  intros (u1 & r1 & Hu1 & Hr1 & _ & Hb1) (u2 & r2 & Hu2 & Hr2 & _ & Hb2).
  congruence.
Qed.

Lemma issue_step_run st acc issue thread :
  serves E (client st) issue thread →
  Forall text_comment thread →
  ∃ (b : bool) st',
    issue_step E acc issue st = (Ok (if b then acc else acc ++ [issue]), st') ∧
    client st' = client st ∧
    (b = false ↔ Forall (silent_on "resolved") thread).
Proof.
  intros (url & r & Hu & Hr & Hs & Hb) Htext.
  destruct (py_any_text "resolved" thread eq_refl Htext) as (b & Hany & Hiff).
  exists b, (sent url st). split; [|done].
  unfold issue_step, bind, lift. rewrite Hu. simpl.
  rewrite fetch_data_run, Hr. simpl. rewrite Hs, Hb. simpl. by rewrite Hany.
Qed.

Lemma issues_loop issues st acc :
  Forall (λ issue, ∃ thread, serves E (client st) issue thread ∧
                             Forall text_comment thread) issues →
  ∃ unresolved st',
    for_each issues acc (issue_step E) st = (Ok (acc ++ unresolved), st') ∧
    client st' = client st ∧
    unresolved `sublist_of` issues ∧
    (∀ issue thread, issue ∈ issues → serves E (client st) issue thread →
       Forall (silent_on "resolved") thread → issue ∈ unresolved) ∧
    (Forall (λ issue, ∃ thread, serves E (client st) issue thread ∧
                                Forall (silent_on "resolved") thread) issues →
     unresolved = issues).
Proof.
  intros Hall. revert st acc Hall.
  induction issues as [|issue issues IH]; intros st acc Hall; simpl.
  - exists [], st. rewrite app_nil_r. repeat split; try done.
    all: intros issue thread Hin; by apply elem_of_nil in Hin.
  - apply Forall_cons in Hall as [(thread & Hserves & Htext) Hall].
    destruct (issue_step_run st acc issue thread Hserves Htext)
      as (b & st1 & Hstep & Hc1 & Hb).
    unfold bind. rewrite Hstep.
    rewrite <- Hc1 in Hall.
    destruct (IH st1 (if b then acc else acc ++ [issue]) Hall)
      as (rest & st' & Hrun & Hc & Hsub & Hin & Hsame).
    rewrite Hc1 in Hc, Hin, Hsame.
    exists (if b then rest else issue :: rest), st'.
    split; [|split; [done|split; [|split]]].
    + rewrite Hrun. destruct b; [done|]. by rewrite <- app_assoc.
    + destruct b; [by apply sublist_cons | by apply sublist_skip].
    + intros i th Hi Hs Hsilent.
      apply elem_of_cons in Hi as [->|Hi].
      * rewrite (serves_thread _ _ _ _ Hs Hserves) in Hsilent.
        apply Hb in Hsilent as ->. apply list_elem_of_here.
      * destruct b; [|apply list_elem_of_further]; by eapply Hin.
    + intros Hs. apply Forall_cons in Hs as [(th & Hs1 & Hsilent) Hs].
      rewrite (serves_thread _ _ _ _ Hs1 Hserves) in Hsilent.
      apply Hb in Hsilent as ->. by rewrite (Hsame Hs).
Qed.

Lemma is_inactive_stamped (issue : json) (updated created : string) :
  stamped issue updated created →
  is_inactive issue = Ok (PyStr.lt updated created).
Proof. intros [Hu Hc]. unfold is_inactive. by rewrite Hu, Hc. Qed.

Lemma inactive_filter (issues : list json) :
  Forall (λ issue, ∃ updated created, stamped issue updated created) issues →
  ∃ inactive,
    py_filter is_inactive issues = Ok inactive ∧
    inactive `sublist_of` issues ∧
    (∀ issue updated created, issue ∈ issues → stamped issue updated created →
       PyStr.lt updated created = true → issue ∈ inactive).
Proof.
  induction 1 as [|issue issues (u & c & Hst) _ IH]; simpl.
  - exists []. repeat split; try done.
    all: intros issue u c Hin; by apply elem_of_nil in Hin.
  - rewrite (is_inactive_stamped issue u c Hst).
    destruct IH as (rest & -> & Hsub & Hin).
    exists (if PyStr.lt u c then issue :: rest else rest). split; [done|]. split.
    + destruct (PyStr.lt u c); [by apply sublist_skip | by apply sublist_cons].
    + intros i u' c' Hi Hst' Hlt.
      apply elem_of_cons in Hi as [->|Hi].
      * destruct Hst as [Hu Hc], Hst' as [Hu' Hc'].
        rewrite Hu in Hu'. rewrite Hc in Hc'.
        injection Hu' as <-. injection Hc' as <-.
        rewrite Hlt. apply list_elem_of_here.
      * destruct (PyStr.lt u c); [apply list_elem_of_further|]; by eapply Hin.
Qed.

(** The check, for an issue list whose issues are served with threads of
    text comments and carry their two stamps. *)
Lemma analyze_issues_run st r issues :
  resource E (client st) "/issues?state=open" = Some r →
  status_code r = 200 →
  json_body r = JList issues →
  Forall (λ issue, ∃ thread, serves E (client st) issue thread ∧
                             Forall text_comment thread) issues →
  Forall (λ issue, ∃ updated created, stamped issue updated created) issues →
  ∃ unresolved inactive st1,
    fst (for_each issues [] (issue_step E)
           (sent (base_url (client st) +:+ "/issues?state=open") st))
    = Ok unresolved ∧
    py_filter is_inactive unresolved = Ok inactive ∧
    analyze_issues E st = (Ok (issues_message unresolved inactive), st1) ∧
    unresolved `sublist_of` issues ∧
    inactive `sublist_of` unresolved ∧
    (Forall (λ issue, ∃ thread, serves E (client st) issue thread ∧
                                Forall (silent_on "resolved") thread) issues →
     unresolved = issues) ∧
    (∀ issue thread updated created,
       issue ∈ issues → serves E (client st) issue thread →
       Forall (silent_on "resolved") thread →
       stamped issue updated created → PyStr.lt updated created = true →
       issue ∈ inactive).
Proof.
  unfold resource. intros Hr Hs Hb Hthreads Hstamps.
  destruct (issues_loop issues (sent (base_url (client st) +:+ "/issues?state=open") st)
              [] Hthreads)
    as (unresolved & st1 & Hloop & Hc & Hsub & Hin & Hsame).
  simpl in Hloop, Hin, Hsame.
  assert (Forall (λ issue, ∃ updated created, stamped issue updated created) unresolved)
    as Hstamps'.
  { apply Forall_forall. intros issue Hi.
    rewrite Forall_forall in Hstamps. apply Hstamps. by eapply elem_of_sublist. }
  destruct (inactive_filter unresolved Hstamps') as (inactive & Hfilter & Hsub' & Hin').
  exists unresolved, inactive, st1.
  split; [by rewrite Hloop|]. split; [done|]. split; [|split; [done|split; [done|split]]].
  - unfold analyze_issues, bind, self, lift. simpl.
    rewrite fetch_data_run, Hr. simpl. rewrite Hs, Hb. simpl.
    by rewrite Hloop, Hfilter.
  - exact Hsame.
  - intros issue thread u c Hi Hserves Hsilent Hst Hlt.
    eapply Hin'; [|done..]. by eapply Hin.
Qed.

Lemma silent_is_text (word : string) (comment : json) :
  silent_on word comment → text_comment comment.
Proof. intros (body & H & _). by exists body. Qed.

(** C6. When no comment thread of the open issues has an occurrence of
    "resolved", in any casing, every open issue is classified unresolved
    and the reported count is the number of open issues. *)
Theorem issues_all_unresolved st r issues :
  resource E (client st) "/issues?state=open" = Some r →
  status_code r = 200 →
  json_body r = JList issues →
  Forall (λ issue, ∃ thread, serves E (client st) issue thread ∧
                             Forall (silent_on "resolved") thread) issues →
  Forall (λ issue, ∃ updated created, stamped issue updated created) issues →
  fst (for_each issues [] (issue_step E)
         (sent (base_url (client st) +:+ "/issues?state=open") st))
  = Ok issues ∧
  ∃ inactive,
    py_filter is_inactive issues = Ok inactive ∧
    fst (analyze_issues E st) = Ok (issues_message issues inactive) ∧
    (issues = [] → issues_message issues inactive = "No unresolved open issues.") ∧
    (issues ≠ [] →
     ∃ tail, issues_message issues inactive
             = "Found " +:+ PyStr.of_nat (length issues) +:+
               " unresolved open issues" +:+ tail).
Proof.
  intros Hr Hs Hb Hsilent Hstamps.
  assert (Forall (λ issue, ∃ thread, serves E (client st) issue thread ∧
                                     Forall text_comment thread) issues) as Htext.
  { eapply Forall_impl; [exact Hsilent|]. simpl.
    intros issue (thread & Hserves & Hth). exists thread. split; [done|].
    eapply Forall_impl; [exact Hth|]. apply silent_is_text. }
  destruct (analyze_issues_run st r issues Hr Hs Hb Htext Hstamps)
    as (unresolved & inactive & st1 & Hloop & Hfilter & Hrun & _ & _ & Hsame & _).
  rewrite (Hsame Hsilent) in *.
  split; [done|]. exists inactive. split; [done|]. split; [by rewrite Hrun|].
  split; [by intros ->|].
  intros Hne. unfold issues_message.
  destruct issues as [|issue issues']; [done|].
  destruct inactive as [|j inactive'].
  - exists ".". by do 2 f_equal.
  - exists (", including " +:+ PyStr.of_nat (length (j :: inactive')) +:+
            " with long inactivity.").
    by do 2 f_equal.
Qed.

(** C7, as the code has it.  An unresolved issue whose update stamp
    compares before its creation stamp is counted as inactive, whatever the
    threads of the other issues say. *)
Theorem stale_issue_counted st r issues issue thread updated created :
  resource E (client st) "/issues?state=open" = Some r →
  status_code r = 200 →
  json_body r = JList issues →
  Forall (λ issue, ∃ thread, serves E (client st) issue thread ∧
                             Forall text_comment thread) issues →
  Forall (λ issue, ∃ updated created, stamped issue updated created) issues →
  issue ∈ issues →
  serves E (client st) issue thread →
  Forall (silent_on "resolved") thread →
  stamped issue updated created →
  PyStr.lt updated created = true →
  ∃ unresolved inactive,
    unresolved `sublist_of` issues ∧
    py_filter is_inactive unresolved = Ok inactive ∧
    issue ∈ inactive ∧
    fst (analyze_issues E st)
    = Ok ("Found " +:+ PyStr.of_nat (length unresolved) +:+
          " unresolved open issues, including " +:+
          PyStr.of_nat (length inactive) +:+ " with long inactivity.").
Proof.
  intros Hr Hs Hb Htext Hstamps Hin Hserves Hsilent Hst Hlt.
  destruct (analyze_issues_run st r issues Hr Hs Hb Htext Hstamps)
    as (unresolved & inactive & st1 & _ & Hfilter & Hrun & Hsub & Hsub' & _ & Hcount).
  specialize (Hcount issue thread updated created Hin Hserves Hsilent Hst Hlt).
  exists unresolved, inactive. split; [done|]. split; [done|]. split; [done|].
  rewrite Hrun. simpl. f_equal. unfold issues_message.
  destruct inactive as [|i inactive]; [by apply elem_of_nil in Hcount|].
  destruct unresolved as [|u unresolved]; [|done].
  by apply sublist_nil_r in Hsub'.
Qed.

End IssueCheck.

Lemma silent_on_intro (word : string) (comment : json) (body : string) :
  PyStr.lower word = word →
  py_getitem comment "body" = Ok (JStr body) →
  PyStr.contains word (PyStr.lower body) = false →
  silent_on word comment.
Proof.
  intros Hw Hb Hc. exists body. split; [done|].
  intros Hocc. apply flagged_spec in Hocc; [congruence|done].
Qed.

Lemma issues_all_unresolved_witness :
  fst (analyze_issues quiet_board demo_state)
  = Ok "Found 2 unresolved open issues, including 1 with long inactivity." ∧
  ∃ inactive,
    py_filter is_inactive [stale_issue; fresh_issue] = Ok inactive ∧
    fst (analyze_issues quiet_board demo_state)
    = Ok (issues_message [stale_issue; fresh_issue] inactive).
Proof.
  split; [reflexivity|].
  assert (resource quiet_board (client demo_state) "/issues?state=open"
          = Some (answer 200 (JList [stale_issue; fresh_issue]))) as Hr
    by reflexivity.
  assert (Forall (λ issue, ∃ thread, serves quiet_board (client demo_state) issue thread ∧
                                     Forall (silent_on "resolved") thread)
                 [stale_issue; fresh_issue]) as Hsilent.
  { constructor; [|constructor; [|constructor]].
    - exists [JObj [("body", JStr "any news?")]]. split.
      + eexists _, _. repeat split; reflexivity.
      + constructor; [|constructor].
        by apply (silent_on_intro "resolved" _ "any news?").
    - exists []. split; [|constructor].
      eexists _, _. repeat split; reflexivity. }
  assert (Forall (λ issue, ∃ updated created, stamped issue updated created)
                 [stale_issue; fresh_issue]) as Hstamps.
  { repeat constructor; eexists _, _; split; reflexivity. }
  destruct (issues_all_unresolved quiet_board demo_state _ _ Hr eq_refl eq_refl
              Hsilent Hstamps) as (_ & inactive & Hfilter & Hrun & _).
  exists inactive. by split.
Defined.

Lemma stale_issue_counted_witness :
  PyStr.lt "2024-01-01T00:00:00Z" "2024-06-01T00:00:00Z" = true ∧
  ∃ unresolved inactive,
    unresolved `sublist_of` [settled_issue; stale_issue] ∧
    py_filter is_inactive unresolved = Ok inactive ∧
    stale_issue ∈ inactive ∧
    fst (analyze_issues stale_board demo_state)
    = Ok ("Found " +:+ PyStr.of_nat (length unresolved) +:+
          " unresolved open issues, including " +:+
          PyStr.of_nat (length inactive) +:+ " with long inactivity.").
Proof.
  split; [reflexivity|].
  assert (resource stale_board (client demo_state) "/issues?state=open"
          = Some (answer 200 (JList [settled_issue; stale_issue]))) as Hr
    by reflexivity.
  assert (text_comment (JObj [("body", JStr "Resolved in v2")])) as Ht1
    by (by exists "Resolved in v2").
  assert (silent_on "resolved" (JObj [("body", JStr "any news?")])) as Hs2
    by (by apply (silent_on_intro "resolved" _ "any news?")).
  assert (serves stale_board (client demo_state) settled_issue
            [JObj [("body", JStr "Resolved in v2")]]) as Hserves1
    by (eexists _, _; repeat split; reflexivity).
  assert (serves stale_board (client demo_state) stale_issue
            [JObj [("body", JStr "any news?")]]) as Hserves2
    by (eexists _, _; repeat split; reflexivity).
  apply (stale_issue_counted stale_board demo_state _ _ stale_issue
           [JObj [("body", JStr "any news?")]]
           "2024-01-01T00:00:00Z" "2024-06-01T00:00:00Z" Hr eq_refl eq_refl).
  - constructor; [|constructor; [|constructor]].
    + eexists. split; [exact Hserves1|]. by constructor.
    + eexists. split; [exact Hserves2|]. constructor; [|constructor].
      by eapply silent_is_text.
  - repeat constructor; eexists _, _; split; reflexivity.
  - apply list_elem_of_further, list_elem_of_here.
  - exact Hserves2.
  - by constructor.
  - by split.
  - reflexivity.
Defined.

(** C7 as stated fails on an issue that is resolved: its update stamp
    compares before its creation stamp, and the check counts no inactive
    issue at all. *)
Lemma settled_issue_counterexample :
  resource settled_board demo_client "/issues?state=open"
  = Some (answer 200 (JList [settled_issue])) ∧
  stamped settled_issue "2024-01-01T00:00:00Z" "2024-06-01T00:00:00Z" ∧
  PyStr.lt "2024-01-01T00:00:00Z" "2024-06-01T00:00:00Z" = true ∧
  fst (analyze_issues settled_board demo_state) = Ok "No unresolved open issues.".
Proof. repeat split; reflexivity. Qed.

(** ** From the checks to the tickets *)

Section EndToEnd.

Variable E : Env.

Lemma call_bind_inv {A B} (c : Check) (m : M A) (k : A → M B) st b st' :
  reads_only m →
  bind (call c m) k st = (Ok b, st') →
  ∃ a st1, client st1 = client st ∧ yields (client st) m a ∧ k a st1 = (Ok b, st').
Proof.
  intros Hm. unfold call, emit, ret, bind. simpl.
  destruct (Hm (mkState (client st) (log st ++ [EvEnter c]))) as (gets & _ & Hsnd).
  destruct (m (mkState (client st) (log st ++ [EvEnter c]))) as [[a|e] st1] eqn:Hrun;
    simpl in Hsnd; subst st1; simpl; [|discriminate].
  intros Hk. eexists a, _. split; [|split; [|exact Hk]]; [done|].
  exists (mkState (client st) (log st ++ [EvEnter c])). split; [done|]. by rewrite Hrun.
Qed.

(** The statuses of a run are what the checks return for the client. *)
Lemma run_checks_yields st s st' :
  run_checks E st = (Ok s, st') →
  yields (client st) (check_documentation E) (documentation_status s) ∧
  yields (client st) (analyze_issues E) (issues_status s) ∧
  yields (client st) (analyze_pull_requests E) (pulls_status s) ∧
  yields (client st) (check_dependencies E) (dependencies_status s) ∧
  yields (client st) (check_security E) (security_status s) ∧
  yields (client st) (check_license E) (license_status s) ∧
  yields (client st) (check_contributing_guidelines E) (contributing_status s) ∧
  yields (client st) (check_issue_templates E) (issue_templates_status s) ∧
  yields (client st) (check_pull_request_templates E) (pr_templates_status s) ∧
  yields (client st) (check_changelog E) (changelog_status s).
Proof.
  unfold run_checks. intros H.
  apply call_bind_inv in H as (a1 & st1 & Hc1 & Hy1 & H);
    [|apply reads_only_check_documentation].
  apply call_bind_inv in H as (a2 & st2 & Hc2 & Hy2 & H);
    [|apply reads_only_analyze_issues].
  apply call_bind_inv in H as (a3 & st3 & Hc3 & Hy3 & H);
    [|apply reads_only_analyze_pull_requests].
  apply call_bind_inv in H as (a4 & st4 & Hc4 & Hy4 & H);
    [|apply reads_only_check_dependencies].
  apply call_bind_inv in H as (a5 & st5 & Hc5 & Hy5 & H);
    [|apply reads_only_check_security].
  apply call_bind_inv in H as (a6 & st6 & Hc6 & Hy6 & H);
    [|apply reads_only_check_license].
  apply call_bind_inv in H as (a7 & st7 & Hc7 & Hy7 & H);
    [|apply reads_only_probe].
  apply call_bind_inv in H as (a8 & st8 & Hc8 & Hy8 & H);
    [|apply reads_only_probe].
  apply call_bind_inv in H as (a9 & st9 & Hc9 & Hy9 & H);
    [|apply reads_only_probe].
  apply call_bind_inv in H as (a10 & st10 & Hc10 & Hy10 & H);
    [|apply reads_only_probe].
  unfold ret in H. injection H as <- _. simpl.
  rewrite Hc9, Hc8, Hc7, Hc6, Hc5, Hc4, Hc3, Hc2, Hc1 in Hy10.
  rewrite Hc8, Hc7, Hc6, Hc5, Hc4, Hc3, Hc2, Hc1 in Hy9.
  rewrite Hc7, Hc6, Hc5, Hc4, Hc3, Hc2, Hc1 in Hy8.
  rewrite Hc6, Hc5, Hc4, Hc3, Hc2, Hc1 in Hy7.
  rewrite Hc5, Hc4, Hc3, Hc2, Hc1 in Hy6.
  rewrite Hc4, Hc3, Hc2, Hc1 in Hy5.
  rewrite Hc3, Hc2, Hc1 in Hy4.
  rewrite Hc2, Hc1 in Hy3.
  rewrite Hc1 in Hy2.
  by repeat split.
Qed.

Lemma check_security_found st r n :
  resource E (client st) "/vulnerability-alerts" = Some r →
  status_code r = 200 →
  py_getitem (json_body r) "total_count" = Ok (JInt n) →
  n ≠ 0 →
  fst (check_security E st)
  = Ok ("Found " +:+ PyStr.of_Z n +:+ " security vulnerabilities.").
Proof.
  unfold resource. intros Hr Hs Hn Hnz.
  unfold check_security, bind, self, try_except_HTTPError. simpl.
  rewrite fetch_data_run, Hr. simpl. rewrite Hs. simpl.
  unfold lift. rewrite Hn. cbv beta iota.
  change (py_eq (JInt n) (JInt 0)) with (n =? 0).
  destruct (n =? 0) eqn:H0; [apply Z.eqb_eq in H0; done|].
  reflexivity.
Qed.

Lemma check_security_failed st r :
  resource E (client st) "/vulnerability-alerts" = Some r →
  is_error_status (status_code r) = true →
  fst (check_security E st) = Ok "Could not retrieve security vulnerabilities.".
Proof.
  unfold resource. intros Hr Hs.
  unfold check_security, bind, self, try_except_HTTPError. simpl.
  rewrite fetch_data_run, Hr. unfold fetch_outcome. rewrite Hs.
  destruct (status_code r =? 200) eqn:H200; [|done].
  apply Z.eqb_eq in H200. rewrite H200 in Hs. discriminate.
Qed.

Lemma filter_ticket_if (b : bool) (title title' body : string) :
  filter (λ t : string * string, fst t = title) (ticket_if b title' body)
  = if decide (title' = title) then ticket_if b title' body else [].
Proof.
  destruct b; simpl; [|by case_decide].
  rewrite filter_cons, filter_nil. simpl. by destruct (decide (title' = title)).
Qed.

Ltac pick_title :=
  unfold planned_tickets;
  rewrite !filter_app, !filter_ticket_if;
  repeat (case_decide; [try discriminate|try done]).

(** Among the planned tickets, those of one title. *)
Lemma planned_documentation (s : Statuses) :
  filter (λ t : string * string, fst t = "Missing README.md or essential sections")
         (planned_tickets s)
  = ticket_if (flagged "missing" (documentation_status s))
      "Missing README.md or essential sections" (documentation_status s).
Proof. pick_title. by rewrite app_nil_r. Qed.

Lemma planned_security (s : Statuses) :
  filter (λ t : string * string, fst t = "Security vulnerabilities detected")
         (planned_tickets s)
  = ticket_if (flagged "security vulnerabilities" (security_status s))
      "Security vulnerabilities detected" (security_status s).
Proof. pick_title. by rewrite app_nil_r. Qed.

(** A run that completes has submitted the planned tickets. *)
Lemma completed_run (c : Client) st' :
  report_findings E (mkState c []) = (Ok tt, st') →
  ∃ s st1,
    run_checks E (mkState c []) = (Ok s, st1) ∧
    tickets (log st') = planned_tickets s.
Proof.
  intros Hrun.
  destruct (report_findings_run E (mkState c [])) as (cevs & Hsnd & Htr & Hrep).
  destruct (checks_trace_marks _ _ _ Htr) as (_ & _ & Hev). clear Htr.
  destruct (run_checks E (mkState c [])) as [[s|e] st1]; simpl in *;
    [|rewrite Hrep in Hrun; discriminate].
  exists s, st1. split; [done|].
  destruct (remediate_submits E s
              (mkState c (cevs ++ [EvPrint (render_report (repo_name c) s)])))
    as (revs & c' & Hs & _ & _ & _ & Hok & _).
  rewrite <- Hrep, Hrun in Hs, Hok. simpl in Hs, Hok. subst st'. simpl.
  rewrite !tickets_app, (tickets_check_events _ Hev), (Hok eq_refl). done.
Qed.

(** A run that reaches the remediation step submits the planned tickets
    in order, at least the first one, and all of them when it completes. *)
Lemma remediation_reached (c : Client) s st1 :
  run_checks E (mkState c []) = (Ok s, st1) →
  let run := report_findings E (mkState c []) in
  tickets (log (snd run)) `prefix_of` planned_tickets s ∧
  (fst run = Ok tt → tickets (log (snd run)) = planned_tickets s) ∧
  (fst run = Ok tt ∨ tickets (log (snd run)) ≠ []).
Proof.
  intros Hchecks. simpl.
  destruct (report_findings_run E (mkState c [])) as (cevs & _ & Htr & Hrep).
  destruct (checks_trace_marks _ _ _ Htr) as (_ & _ & Hev). clear Htr.
  rewrite Hchecks in Hrep. simpl in Hrep. rewrite Hrep.
  destruct (remediate_submits E s
              (mkState c (cevs ++ [EvPrint (render_report (repo_name c) s)])))
    as (revs & c' & -> & _ & _ & Hpre & Hok & Hne). simpl.
  by rewrite !tickets_app, (tickets_check_events _ Hev).
Qed.

Lemma filter_prefix {A} (P : A → Prop) `{!∀ x, Decision (P x)} (l1 l2 : list A) :
  l1 `prefix_of` l2 → filter P l1 `prefix_of` filter P l2.
Proof. intros [k ->]. rewrite filter_app. by apply prefix_app_r. Qed.

(** When the first planned ticket is due, it is submitted once in every
    run that reaches the remediation step. *)
Lemma first_ticket (c : Client) s st1 (title body : string) :
  run_checks E (mkState c []) = (Ok s, st1) →
  (∃ rest, planned_tickets s = (title, body) :: rest) →
  filter (λ t : string * string, fst t = title) (planned_tickets s) = [(title, body)] →
  tickets_titled title (log (snd (report_findings E (mkState c [])))) = [body].
Proof.
  intros Hchecks [rest Hplan] Hone.
  destruct (remediation_reached c s st1 Hchecks) as (Hpre & Hok & Hne).
  unfold tickets_titled.
  destruct Hne as [Hdone|Hne]; [by rewrite (Hok Hdone), Hone|].
  pose proof (filter_prefix (λ t : string * string, fst t = title) _ _ Hpre) as Hf.
  rewrite Hone in Hf.
  destruct (tickets (log (snd (report_findings E (mkState c []))))) as [|t more];
    [done|].
  rewrite Hplan in Hpre. apply prefix_cons_inv_1 in Hpre as ->.
  rewrite filter_cons_True in Hf |- * by done.
  apply prefix_cons_inv_2, prefix_nil_inv in Hf. by rewrite Hf.
Qed.

(** C8, as the code has it.  When the README read fails with an HTTP
    error status, as it does on 404, the Documentation status is the
    "missing" message; and in a run that reaches the remediation step, all
    ten checks having returned, that step submits exactly one ticket titled
    "Missing README.md or essential sections", whose body is that message. *)
Theorem missing_readme_ticket (c : Client) r s st1 :
  resource E c "/readme" = Some r →
  is_error_status (status_code r) = true →
  run_checks E (mkState c []) = (Ok s, st1) →
  fst (check_documentation E (mkState c [])) = Ok "README.md file is missing." ∧
  documentation_status s = "README.md file is missing." ∧
  tickets_titled "Missing README.md or essential sections"
                 (log (snd (report_findings E (mkState c []))))
  = ["README.md file is missing."].
Proof.
  intros Hr Hs Hchecks.
  split; [by rewrite (check_documentation_missing E (mkState c []) r)|].
  assert (documentation_status s = "README.md file is missing.") as Hdoc.
  { destruct (run_checks_yields _ _ _ Hchecks) as ((st & Hc & Hy) & _).
    simpl in Hc. subst c.
    rewrite (check_documentation_missing E st r) in Hy by done.
    by injection Hy. }
  split; [done|].
  apply (first_ticket c s st1); [done| |].
  - unfold planned_tickets. rewrite Hdoc. simpl. eauto.
  - rewrite planned_documentation, Hdoc. reflexivity.
Qed.

(** C9, as the code has it.  When the vulnerability-alert read succeeds
    with a total count of 3, the Security status is "Found 3 security
    vulnerabilities."; and a run that completes has submitted a ticket
    titled "Security vulnerabilities detected" with exactly that message
    as its body. *)
Theorem security_ticket (c : Client) r st' :
  resource E c "/vulnerability-alerts" = Some r →
  status_code r = 200 →
  py_getitem (json_body r) "total_count" = Ok (JInt 3) →
  report_findings E (mkState c []) = (Ok tt, st') →
  (∀ st, client st = c →
     fst (check_security E st) = Ok "Found 3 security vulnerabilities.") ∧
  (∃ s st1, run_checks E (mkState c []) = (Ok s, st1) ∧
            security_status s = "Found 3 security vulnerabilities.") ∧
  tickets_titled "Security vulnerabilities detected" (log st')
  = ["Found 3 security vulnerabilities."].
Proof.
  intros Hr Hs Hn Hrun.
  assert (∀ st, client st = c →
            fst (check_security E st) = Ok "Found 3 security vulnerabilities.") as Hsec.
  { intros st <-. by rewrite (check_security_found st r 3). }
  split; [done|].
  destruct (completed_run c st' Hrun) as (s & st1 & Hchecks & Htickets).
  assert (security_status s = "Found 3 security vulnerabilities.") as Hstatus.
  { destruct (run_checks_yields _ _ _ Hchecks) as (_ & _ & _ & _ & (st & Hc & Hy) & _).
    rewrite (Hsec st Hc) in Hy. by injection Hy. }
  split; [by exists s, st1|].
  unfold tickets_titled. by rewrite Htickets, planned_security, Hstatus.
Qed.

(** C10, as the code has it.  When the vulnerability-alert read fails
    with an HTTP error status, the Security status is "Could not retrieve
    security vulnerabilities."; this message passes the remediation test
    for "security vulnerabilities"; and a run that completes has submitted
    a ticket titled "Security vulnerabilities detected" with it as body. *)
Theorem inconclusive_security_ticket (c : Client) r st' :
  resource E c "/vulnerability-alerts" = Some r →
  is_error_status (status_code r) = true →
  report_findings E (mkState c []) = (Ok tt, st') →
  (∀ st, client st = c →
     fst (check_security E st) = Ok "Could not retrieve security vulnerabilities.") ∧
  flagged "security vulnerabilities" "Could not retrieve security vulnerabilities." = true ∧
  (∃ s st1, run_checks E (mkState c []) = (Ok s, st1) ∧
            security_status s = "Could not retrieve security vulnerabilities.") ∧
  tickets_titled "Security vulnerabilities detected" (log st')
  = ["Could not retrieve security vulnerabilities."].
Proof.
  intros Hr Hs Hrun.
  assert (∀ st, client st = c →
            fst (check_security E st)
            = Ok "Could not retrieve security vulnerabilities.") as Hsec.
  { intros st <-. by rewrite (check_security_failed st r). }
  split; [done|]. split; [reflexivity|].
  destruct (completed_run c st' Hrun) as (s & st1 & Hchecks & Htickets).
  assert (security_status s = "Could not retrieve security vulnerabilities.") as Hstatus.
  { destruct (run_checks_yields _ _ _ Hchecks) as (_ & _ & _ & _ & (st & Hc & Hy) & _).
    rewrite (Hsec st Hc) in Hy. by injection Hy. }
  split; [by exists s, st1|].
  unfold tickets_titled. by rewrite Htickets, planned_security, Hstatus.
Qed.

End EndToEnd.

Lemma missing_readme_ticket_witness :
  resource bare_repository demo_client "/readme" = Some (answer 404 JNull) ∧
  tickets_titled "Missing README.md or essential sections"
                 (log (snd (report_findings bare_repository demo_state)))
  = ["README.md file is missing."].
Proof.
  split; [reflexivity|].
  destruct (run_checks bare_repository demo_state) as [[s|e] st1] eqn:Hchecks;
    [|vm_compute in Hchecks; discriminate].
  exact (proj2 (proj2 (missing_readme_ticket bare_repository demo_client
                         (answer 404 JNull) s st1 eq_refl eq_refl Hchecks))).
Defined.

(** C8 as stated fails on a repository of which nothing can be read: the
    README read fails with 404, the Documentation status is "missing", the
    listing of the open issues fails as well, which ends the run, and no
    ticket is submitted. *)
Lemma missing_readme_counterexample :
  resource nothing_found demo_client "/readme" = Some (answer 404 JNull) ∧
  fst (check_documentation nothing_found demo_state) = Ok "README.md file is missing." ∧
  fst (report_findings nothing_found demo_state) = Raise (HTTPError 404) ∧
  tickets_titled "Missing README.md or essential sections"
                 (log (snd (report_findings nothing_found demo_state))) = [].
Proof. repeat split; vm_compute; reflexivity. Qed.

Lemma security_ticket_witness :
  fst (report_findings bare_repository demo_state) = Ok tt ∧
  tickets_titled "Security vulnerabilities detected"
                 (log (snd (report_findings bare_repository demo_state)))
  = ["Found 3 security vulnerabilities."].
Proof.
  assert (fst (report_findings bare_repository demo_state) = Ok tt) as Hok
    by (vm_compute; reflexivity).
  split; [exact Hok|]. revert Hok.
  destruct (report_findings bare_repository demo_state) as [r st'] eqn:Hrun.
  simpl. intros ->.
  exact (proj2 (proj2 (security_ticket bare_repository demo_client
                         (answer 200 (JObj [("total_count", JInt 3)])) st'
                         eq_refl eq_refl eq_refl Hrun))).
Defined.

(** C9 as stated fails when the run ends after the Security check: here
    the alert summary is read with a total count of 3 and the Security
    check returns, the license read gets no response, and the run is over
    before the remediation step. *)
Lemma security_ticket_counterexample :
  resource bare_repository_cut_off demo_client "/vulnerability-alerts"
  = Some (answer 200 (JObj [("total_count", JInt 3)])) ∧
  fst (check_security bare_repository_cut_off demo_state)
  = Ok "Found 3 security vulnerabilities." ∧
  EvLeave Security ∈ log (snd (report_findings bare_repository_cut_off demo_state)) ∧
  fst (report_findings bare_repository_cut_off demo_state) = Raise RequestException ∧
  tickets (log (snd (report_findings bare_repository_cut_off demo_state))) = [].
Proof.
  split; [vm_compute; reflexivity|]. split; [vm_compute; reflexivity|].
  split; [|split; vm_compute; reflexivity].
  vm_compute. repeat first [apply list_elem_of_here | apply list_elem_of_further].
Qed.

Lemma inconclusive_security_ticket_witness :
  fst (report_findings alerts_disabled demo_state) = Ok tt ∧
  tickets_titled "Security vulnerabilities detected"
                 (log (snd (report_findings alerts_disabled demo_state)))
  = ["Could not retrieve security vulnerabilities."].
Proof.
  assert (fst (report_findings alerts_disabled demo_state) = Ok tt) as Hok
    by (vm_compute; reflexivity).
  split; [exact Hok|]. revert Hok.
  destruct (report_findings alerts_disabled demo_state) as [r st'] eqn:Hrun.
  simpl. intros ->.
  exact (proj2 (proj2 (proj2 (inconclusive_security_ticket alerts_disabled demo_client
                                (answer 404 JNull) st' eq_refl eq_refl Hrun)))).
Defined.

(** C10 as stated fails in the same way: the alert read fails with 404,
    the Security check returns the inconclusive message, the license read
    gets no response, and no ticket is submitted. *)
Lemma inconclusive_security_counterexample :
  resource alerts_disabled_cut_off demo_client "/vulnerability-alerts" = Some (answer 404 JNull) ∧
  fst (check_security alerts_disabled_cut_off demo_state)
  = Ok "Could not retrieve security vulnerabilities." ∧
  EvLeave Security ∈ log (snd (report_findings alerts_disabled_cut_off demo_state)) ∧
  fst (report_findings alerts_disabled_cut_off demo_state) = Raise RequestException ∧
  tickets (log (snd (report_findings alerts_disabled_cut_off demo_state))) = [].
Proof.
  split; [vm_compute; reflexivity|]. split; [vm_compute; reflexivity|].
  split; [|split; vm_compute; reflexivity].
  vm_compute. repeat first [apply list_elem_of_here | apply list_elem_of_further].
Qed.

Lemma documentation_complete_witness :
  Forall (λ kw, ci_occurs kw "Installation, USAGE, Contributing, License and ChangeLog")
         essential_sections ∧
  fst (check_documentation well_documented demo_state)
  = Ok "README.md is present and contains all essential sections.".
Proof.
  assert (Forall (λ kw, ci_occurs kw
                          "Installation, USAGE, Contributing, License and ChangeLog")
                 essential_sections) as H.
  { repeat constructor; by apply flagged_spec. }
  split; [exact H|].
  exact (documentation_complete well_documented demo_state _ _ _ eq_refl eq_refl
           eq_refl eq_refl H).
Defined.

Lemma documentation_names_missing_witness :
  missing_keywords_are "Installation, USAGE, Contributing" ["license"; "changelog"] ∧
  fst (check_documentation partly_documented demo_state)
  = Ok "README.md is present but missing sections: license, changelog.".
Proof.
  assert (missing_keywords_are "Installation, USAGE, Contributing"
                               ["license"; "changelog"]) as H.
  { intros kw Hkw. rewrite <- keyword_absent by done.
    unfold essential_sections in Hkw.
    repeat (apply elem_of_cons in Hkw as [->|Hkw];
            [split; [intros Hc; try discriminate Hc; repeat constructor
                    |intros Hin; try reflexivity;
                     repeat (apply elem_of_cons in Hin as [Hin|Hin];
                             [discriminate Hin|]);
                     by apply elem_of_nil in Hin]|]).
    by apply elem_of_nil in Hkw. }
  split; [exact H|].
  exact (proj2 (documentation_names_missing partly_documented demo_state _ _ _
                  eq_refl eq_refl eq_refl eq_refl H)).
Defined.

(** ** Statuses and remediation predicates *)

Section StatusFacts.

Variable E : Env.

(** A status that has [word] between two texts is flagged for it. *)
Lemma flagged_between (word pre post : string) :
  PyStr.lower word = word → flagged word (pre +:+ word +:+ post) = true.
Proof.
  intros Hw. unfold flagged. apply contains_spec.
  exists (PyStr.lower pre), (PyStr.lower post). by rewrite !lower_append, Hw.
Qed.

Lemma missing_sections_spec (text kw : string) :
  kw ∈ missing_sections text ↔ kw ∈ essential_sections ∧ ¬ ci_occurs kw text.
Proof.
  unfold missing_sections. rewrite list_elem_of_filter. split.
  - intros [Hc Hin]. split; [done|]. by apply keyword_absent.
  - intros [Hin Hc]. split; [|done]. by apply keyword_absent.
Qed.

(** X1. The Documentation message is the "complete" one exactly when each
    of the five keywords occurs in the README, in any casing; otherwise the
    keywords it lists are exactly those that do not occur, in the order of
    the policy. *)
Theorem documentation_verdict (text : string) :
  (classify_readme text = "README.md is present and contains all essential sections."
   ↔ Forall (λ kw, ci_occurs kw text) essential_sections) ∧
  (∀ kw, kw ∈ missing_sections text ↔ kw ∈ essential_sections ∧ ¬ ci_occurs kw text) ∧
  missing_sections text `sublist_of` essential_sections ∧
  (missing_sections text ≠ [] →
   classify_readme text
   = "README.md is present but missing sections: " +:+
     PyStr.join ", " (missing_sections text) +:+ ".").
Proof.
  assert (missing_sections text = [] ↔ Forall (λ kw, ci_occurs kw text) essential_sections)
    as Hnone.
  { rewrite Forall_forall. split.
    - intros Hnil kw Hkw.
      destruct (PyStr.contains kw (PyStr.lower text)) eqn:Hc.
      + by apply keyword_test.
      + assert (kw ∈ missing_sections text) as Hin.
        { apply missing_sections_spec. split; [done|]. by apply keyword_absent. }
        rewrite Hnil in Hin. by apply elem_of_nil in Hin.
    - intros Hall. destruct (missing_sections text) as [|kw ms] eqn:Hms; [done|].
      assert (kw ∈ missing_sections text) as Hin by (rewrite Hms; apply list_elem_of_here).
      apply missing_sections_spec in Hin as [Hin Hno]. by destruct Hno; apply Hall. }
  split; [|split; [apply missing_sections_spec|split]].
  - rewrite <- Hnone. unfold classify_readme.
    destruct (missing_sections text) as [|kw ms]; [done|].
    split; [|done]. simpl. discriminate.
  - unfold missing_sections. apply sublist_filter.
  - intros Hne. unfold classify_readme.
    by destruct (missing_sections text).
Qed.

(** X2. The remediation test for "missing" passes on the Documentation
    status of every README that lacks a keyword, and fails on the status
    of a complete one: an incomplete README gets the ticket as a missing
    one does. *)
Theorem documentation_flagged (text : string) :
  flagged "missing" (classify_readme text)
  = negb (bool_decide (missing_sections text = [])) ∧
  flagged "missing" "README.md file is missing." = true.
Proof.
  split; [|reflexivity]. unfold classify_readme.
  destruct (missing_sections text) as [|kw ms]; [reflexivity|].
  rewrite bool_decide_eq_false_2 by done. simpl negb.
  apply (flagged_between "missing" "README.md is present but "
           (" sections: " +:+ PyStr.join ", " (kw :: ms) +:+ ".") eq_refl).
Qed.

End StatusFacts.

(** ** Checks of one read *)

Section SingleReadChecks.

Variable E : Env.

Lemma append_assoc (a b c : string) : (a +:+ b) +:+ c = a +:+ (b +:+ c).
Proof. induction a as [|x a IH]; simpl; [reflexivity | by rewrite IH]. Qed.

Lemma not_error_status (s : Z) : ¬ (400 ≤ s < 600) → is_error_status s = false.
Proof.
  intros H. destruct (is_error_status s) eqn:He; [|done].
  by apply is_error_status_spec in He.
Qed.

Lemma fetch_data_none st url r :
  requests_get E (headers (client st)) url = Some r →
  status_code r ≠ 200 → ¬ (400 ≤ status_code r < 600) →
  fetch_data E url st = (Ok JNull, sent url st).
Proof.
  intros Hr H200 Herr. rewrite fetch_data_run, Hr. simpl.
  rewrite (not_error_status _ Herr).
  destruct (status_code r =? 200) eqn:Heq; [|done].
  by apply Z.eqb_eq in Heq.
Qed.

(** X3. A read that is answered with a status that is neither 200 nor an
    error status (204 No Content, say) makes [fetch_data] return [None],
    and every check that looks into the body raises [TypeError], which no
    [except HTTPError] catches: the Documentation, Security and License
    checks, and the two listings. *)
Theorem unexpected_status_raises st r :
  status_code r ≠ 200 → ¬ (400 ≤ status_code r < 600) →
  (resource E (client st) "/readme" = Some r →
   fst (check_documentation E st) = Raise TypeError) ∧
  (resource E (client st) "/issues?state=open" = Some r →
   fst (analyze_issues E st) = Raise TypeError) ∧
  (resource E (client st) "/pulls?state=open" = Some r →
   fst (analyze_pull_requests E st) = Raise TypeError) ∧
  (resource E (client st) "/vulnerability-alerts" = Some r →
   fst (check_security E st) = Raise TypeError) ∧
  (resource E (client st) "/license" = Some r →
   fst (check_license E st) = Raise TypeError).
Proof.
  intros H200 Herr. unfold resource. repeat split; intros Hr.
  - unfold check_documentation, bind, self, try_except_HTTPError. simpl.
    by rewrite (fetch_data_none st _ r Hr H200 Herr).
  - unfold analyze_issues, bind, self. simpl.
    by rewrite (fetch_data_none st _ r Hr H200 Herr).
  - unfold analyze_pull_requests, bind, self. simpl.
    by rewrite (fetch_data_none st _ r Hr H200 Herr).
  - unfold check_security, bind, self, try_except_HTTPError. simpl.
    by rewrite (fetch_data_none st _ r Hr H200 Herr).
  - unfold check_license, bind, self, try_except_HTTPError. simpl.
    by rewrite (fetch_data_none st _ r Hr H200 Herr).
Qed.

Lemma probe_run st path present missing r :
  resource E (client st) path = Some r →
  probe E path present missing st
  = (Ok (if is_error_status (status_code r) then missing else present),
     sent (base_url (client st) +:+ path) st).
Proof.
  unfold resource. intros Hr.
  unfold probe, bind, self, try_except_HTTPError. simpl.
  rewrite fetch_data_run, Hr. unfold fetch_outcome.
  destruct (is_error_status (status_code r)) eqn:Hs.
  - apply is_error_status_spec in Hs.
    destruct (status_code r =? 200) eqn:H200; [lia|done].
  - by destruct (status_code r =? 200).
Qed.

(** X4. Each of the four existence probes answers "missing" exactly when
    its read is answered with a 4xx or 5xx status and "present" on every
    other answer, whatever the body; it raises only when the read gets no
    response.  The "missing" answers pass the remediation test and the
    "present" answers do not. *)
Theorem existence_probes st :
  let verdict path present missing :=
    match resource E (client st) path with
    | Some r => Ok (if is_error_status (status_code r) then missing else present)
    | None => Raise RequestException
    end in
  fst (check_contributing_guidelines E st)
  = verdict "/contents/CONTRIBUTING.md"
      "Contributing guidelines are present." "Contributing guidelines are missing." ∧
  fst (check_issue_templates E st)
  = verdict "/contents/.github/ISSUE_TEMPLATE/"
      "Issue templates are present." "Issue templates are missing." ∧
  fst (check_pull_request_templates E st)
  = verdict "/contents/.github/PULL_REQUEST_TEMPLATE.md"
      "Pull request templates are present." "Pull request templates are missing." ∧
  fst (check_changelog E st)
  = verdict "/contents/CHANGELOG.md" "Changelog is present." "Changelog is missing." ∧
  Forall (λ status, flagged "missing" status = true)
    ["Contributing guidelines are missing."; "Issue templates are missing.";
     "Pull request templates are missing."; "Changelog is missing."] ∧
  Forall (λ status, flagged "missing" status = false)
    ["Contributing guidelines are present."; "Issue templates are present.";
     "Pull request templates are present."; "Changelog is present."].
Proof.
  assert (∀ path present missing,
            fst (probe E path present missing st)
            = match resource E (client st) path with
              | Some r => Ok (if is_error_status (status_code r) then missing else present)
              | None => Raise RequestException
              end) as Hprobe.
  { intros path present missing.
    destruct (resource E (client st) path) as [r|] eqn:Hr.
    - by rewrite (probe_run st path present missing r Hr).
    - unfold resource in Hr.
      unfold probe, bind, self, try_except_HTTPError. simpl.
      by rewrite fetch_data_run, Hr. }
  cbv zeta.
  unfold check_contributing_guidelines, check_issue_templates,
    check_pull_request_templates, check_changelog.
  rewrite !Hprobe. repeat split; repeat constructor.
Qed.

Lemma check_security_zero st r :
  resource E (client st) "/vulnerability-alerts" = Some r →
  status_code r = 200 →
  py_getitem (json_body r) "total_count" = Ok (JInt 0) →
  fst (check_security E st) = Ok "No reported vulnerabilities.".
Proof.
  unfold resource. intros Hr Hs Hn.
  unfold check_security, bind, self, try_except_HTTPError. simpl.
  rewrite fetch_data_run, Hr. simpl. rewrite Hs. simpl.
  unfold lift. by rewrite Hn.
Qed.

(** X5. With an alert summary that is read and carries an integer count,
    the Security status is "No reported vulnerabilities." for the count 0,
    which does not pass the remediation test, and "Found n security
    vulnerabilities." for every other count n, which passes it. *)
Theorem security_count st r n :
  resource E (client st) "/vulnerability-alerts" = Some r →
  status_code r = 200 →
  py_getitem (json_body r) "total_count" = Ok (JInt n) →
  ∃ status,
    fst (check_security E st) = Ok status ∧
    (n = 0 → status = "No reported vulnerabilities.") ∧
    (n ≠ 0 → status = "Found " +:+ PyStr.of_Z n +:+ " security vulnerabilities.") ∧
    flagged "security vulnerabilities" status = negb (n =? 0).
Proof.
  intros Hr Hs Hn. destruct (decide (n = 0)) as [->|Hnz].
  - exists "No reported vulnerabilities.".
    split; [by apply (check_security_zero st r)|]. by repeat split.
  - exists ("Found " +:+ PyStr.of_Z n +:+ " security vulnerabilities.").
    split; [by apply (check_security_found E st r)|].
    split; [done|]. split; [done|].
    rewrite (proj2 (Z.eqb_neq n 0) Hnz). simpl negb.
    replace ("Found " +:+ PyStr.of_Z n +:+ " security vulnerabilities.")
      with (("Found " +:+ PyStr.of_Z n +:+ " ") +:+ "security vulnerabilities" +:+ ".")
      by (by rewrite !append_assoc).
    by apply flagged_between.
Qed.

End SingleReadChecks.

(** ** License check *)

Section LicenseCheck.

Variable E : Env.

(** A status that has an occurrence of [word] inside is flagged for it. *)
Lemma flagged_inside (word pre text post : string) :
  PyStr.lower word = word → ci_occurs word text →
  flagged word (pre +:+ text +:+ post) = true.
Proof.
  intros Hw (a & w & b & -> & Hsame). apply lower_same in Hsame.
  unfold flagged. apply contains_spec.
  exists (PyStr.lower pre +:+ PyStr.lower a), (PyStr.lower b +:+ PyStr.lower post).
  by rewrite !lower_append, Hsame, Hw, !append_assoc.
Qed.

Lemma py_getitem_raises (v : json) (k : string) (e : exn) :
  py_getitem v k = Raise e → e = KeyError k ∨ e = TypeError.
Proof.
  destruct v; simpl; try (intros [= <-]; by right).
  destruct (dict_get k fields); [done|]. intros [= <-]. by left.
Qed.

(** X6. The License check, for a read that is answered: an error status
    and a null (or otherwise false) license entry both give "License file
    is missing."; a license entry with a name gives the message with that
    name; a body without the entry, or an entry without a name, raises. *)
Theorem license_verdict st r :
  resource E (client st) "/license" = Some r →
  (400 ≤ status_code r < 600 →
   fst (check_license E st) = Ok "License file is missing.") ∧
  (status_code r = 200 →
   match py_getitem (json_body r) "license" with
   | Raise e => fst (check_license E st) = Raise e
   | Ok license =>
       if py_truthy license then
         match py_getitem license "name" with
         | Ok name =>
             fst (check_license E st)
             = Ok ("License file is present with " +:+ py_str E name +:+ " license.")
         | Raise e => fst (check_license E st) = Raise e
         end
       else fst (check_license E st) = Ok "License file is missing."
   end).
Proof.
  unfold resource. intros Hr. split.
  - intros Hs.
    unfold check_license, bind, self, try_except_HTTPError. simpl.
    rewrite fetch_data_run, Hr. unfold fetch_outcome.
    rewrite (proj2 (is_error_status_spec _) Hs).
    destruct (status_code r =? 200) eqn:H200; [lia|done].
  - intros Hs.
    unfold check_license, bind, self, try_except_HTTPError. simpl.
    rewrite fetch_data_run, Hr. simpl. rewrite Hs. simpl. unfold lift.
    destruct (py_getitem (json_body r) "license") as [license|e] eqn:Hl.
    2: { by destruct (py_getitem_raises _ _ _ Hl) as [-> | ->]. }
    cbv beta iota.
    destruct (py_truthy license); [|done].
    destruct (py_getitem license "name") as [name|e] eqn:Hn; [done|].
    by destruct (py_getitem_raises _ _ _ Hn) as [-> | ->].
Qed.

(** X7. A license that is present still passes the remediation test for
    "missing" when its name has the word in it, in any casing: the status
    then is the "present" message and the "License file missing" ticket
    is due. *)
Theorem license_name_flagged st r license name :
  resource E (client st) "/license" = Some r →
  status_code r = 200 →
  py_getitem (json_body r) "license" = Ok license →
  py_truthy license = true →
  py_getitem license "name" = Ok (JStr name) →
  ci_occurs "missing" name →
  fst (check_license E st)
  = Ok ("License file is present with " +:+ name +:+ " license.") ∧
  flagged "missing" ("License file is present with " +:+ name +:+ " license.") = true.
Proof.
  unfold resource. intros Hr Hs Hl Ht Hn Hocc. split.
  - unfold check_license, bind, self, try_except_HTTPError. simpl.
    rewrite fetch_data_run, Hr. simpl. rewrite Hs. simpl. unfold lift.
    rewrite Hl. cbv beta iota. rewrite Ht, Hn. reflexivity.
  - by apply flagged_inside.
Qed.

End LicenseCheck.

(** ** Pull request check *)

Section PullRequestCheck.

Variable E : Env.

Lemma pull_step_merged st acc pull :
  merged pull → pull_step E acc pull st = (Ok acc, st).
Proof.
  intros (m & Hm & Ht). unfold pull_step, bind, lift. by rewrite Hm, Ht.
Qed.

Lemma pull_step_unmerged st acc pull thread :
  unmerged pull →
  serves_pull E (client st) pull thread →
  Forall text_comment thread →
  ∃ (b : bool) st',
    pull_step E acc pull st = (Ok (if b then acc else acc ++ [pull]), st') ∧
    client st' = client st ∧
    (b = false ↔ Forall (silent_on "addressed") thread).
Proof.
  intros (m & Hm & Ht) (links & link & url & r & Hl & Hk & Hu & Hr & Hs & Hb) Htext.
  destruct (py_any_text "addressed" thread eq_refl Htext) as (b & Hany & Hiff).
  exists b, (sent url st). split; [|done].
  unfold pull_step, bind, lift. rewrite Hm, Ht, Hl, Hk, Hu. simpl.
  rewrite fetch_data_run, Hr. simpl. rewrite Hs, Hb. simpl. by rewrite Hany.
Qed.

Lemma merged_not_unmerged (pull : json) : merged pull → unmerged pull → False.
Proof. intros (m & Hm & Ht) (m' & Hm' & Hf). congruence. Qed.

Lemma serves_pull_thread (c : Client) (pull : json) (t1 t2 : list json) :
  serves_pull E c pull t1 → serves_pull E c pull t2 → t1 = t2.
Proof.
  intros (l1 & k1 & u1 & r1 & Hl1 & Hk1 & Hu1 & Hr1 & _ & Hb1)
         (l2 & k2 & u2 & r2 & Hl2 & Hk2 & Hu2 & Hr2 & _ & Hb2).
  congruence.
Qed.

Lemma pulls_loop pulls st acc :
  Forall (λ pull, merged pull ∨
                  (unmerged pull ∧
                   ∃ thread, serves_pull E (client st) pull thread ∧
                             Forall text_comment thread)) pulls →
  ∃ kept st',
    for_each pulls acc (pull_step E) st = (Ok (acc ++ kept), st') ∧
    client st' = client st ∧
    kept `sublist_of` pulls ∧
    Forall unmerged kept ∧
    (∀ pull thread, pull ∈ pulls → unmerged pull →
       serves_pull E (client st) pull thread →
       Forall (silent_on "addressed") thread → pull ∈ kept) ∧
    (Forall merged pulls → kept = [] ∧ st' = st).
Proof.
  intros Hall. revert st acc Hall.
  induction pulls as [|pull pulls IH]; intros st acc Hall; simpl.
  - exists [], st. rewrite app_nil_r. repeat split; try done.
    all: intros pull thread Hin; by apply elem_of_nil in Hin.
  - apply Forall_cons in Hall as [Hpull Hall]. unfold bind.
    destruct Hpull as [Hmerged | (Hun & thread & Hserves & Htext)].
    + rewrite (pull_step_merged st acc pull Hmerged).
      destruct (IH st acc Hall) as (kept & st' & Hrun & Hc & Hsub & Hkept & Hin & Hskip).
      exists kept, st'. split; [done|]. split; [done|].
      split; [by apply sublist_cons|]. split; [done|]. split.
      * intros p th Hp Hu Hs Hsilent. apply elem_of_cons in Hp as [->|Hp].
        -- destruct (merged_not_unmerged _ Hmerged Hu).
        -- by eapply Hin.
      * intros Hm. apply Forall_cons in Hm as [_ Hm]. by apply Hskip.
    + destruct (pull_step_unmerged st acc pull thread Hun Hserves Htext)
        as (b & st1 & Hstep & Hc1 & Hb).
      rewrite Hstep. rewrite <- Hc1 in Hall.
      destruct (IH st1 (if b then acc else acc ++ [pull]) Hall)
        as (kept & st' & Hrun & Hc & Hsub & Hkept & Hin & _).
      rewrite Hc1 in Hc, Hin.
      exists (if b then kept else pull :: kept), st'.
      split; [|split; [done|split; [|split; [|split]]]].
      * rewrite Hrun. destruct b; [done|]. by rewrite <- app_assoc.
      * destruct b; [by apply sublist_cons | by apply sublist_skip].
      * destruct b; [done | by constructor].
      * intros p th Hp Hu Hs Hsilent. apply elem_of_cons in Hp as [->|Hp].
        -- rewrite (serves_pull_thread _ _ _ _ Hs Hserves) in Hsilent.
           apply Hb in Hsilent as ->. apply list_elem_of_here.
        -- destruct b; [|apply list_elem_of_further]; by eapply Hin.
      * intros Hm. apply Forall_cons in Hm as [Hm _].
        destruct (merged_not_unmerged _ Hm Hun).
Qed.

(** X8. The pull requests that the check counts are open pull requests
    that are not flagged as merged, in the order of the listing; a merged
    one is never counted, and an unmerged one is counted whenever no
    comment of its thread has an occurrence of "addressed". *)
Theorem pulls_counted st r pulls :
  resource E (client st) "/pulls?state=open" = Some r →
  status_code r = 200 →
  json_body r = JList pulls →
  Forall (λ pull, merged pull ∨
                  (unmerged pull ∧
                   ∃ thread, serves_pull E (client st) pull thread ∧
                             Forall text_comment thread)) pulls →
  ∃ kept,
    fst (analyze_pull_requests E st) = Ok (pulls_message kept) ∧
    kept `sublist_of` pulls ∧
    Forall unmerged kept ∧
    (∀ pull thread, pull ∈ pulls → unmerged pull →
       serves_pull E (client st) pull thread →
       Forall (silent_on "addressed") thread → pull ∈ kept).
Proof.
  unfold resource. intros Hr Hs Hb Hall.
  destruct (pulls_loop pulls (sent (base_url (client st) +:+ "/pulls?state=open") st)
              [] Hall) as (kept & st' & Hloop & _ & Hsub & Hkept & Hin & _).
  simpl in Hloop, Hin.
  exists kept. split; [|done].
  unfold analyze_pull_requests, bind, self, lift. simpl.
  rewrite fetch_data_run, Hr. simpl. rewrite Hs, Hb. simpl.
  by rewrite Hloop.
Qed.

(** X9. When every open pull request of the listing is flagged as merged,
    the check reads nothing but the listing, no comment thread at all, and
    answers "No unresolved open pull requests.". *)
Theorem merged_pulls_skipped st r pulls :
  resource E (client st) "/pulls?state=open" = Some r →
  status_code r = 200 →
  json_body r = JList pulls →
  Forall merged pulls →
  analyze_pull_requests E st
  = (Ok "No unresolved open pull requests.",
     sent (base_url (client st) +:+ "/pulls?state=open") st).
Proof.
  unfold resource. intros Hr Hs Hb Hall.
  assert (Forall (λ pull, merged pull ∨
                   (unmerged pull ∧
                    ∃ thread,
                      serves_pull E
                        (client (sent (base_url (client st) +:+ "/pulls?state=open") st))
                        pull thread ∧
                      Forall text_comment thread)) pulls) as Hall'.
  { eapply Forall_impl; [exact Hall|]. by left. }
  destruct (pulls_loop pulls (sent (base_url (client st) +:+ "/pulls?state=open") st)
              [] Hall') as (kept & st' & Hloop & _ & _ & _ & _ & Hskip).
  destruct (Hskip Hall) as [-> ->]. simpl in Hloop.
  unfold analyze_pull_requests, bind, self, lift. simpl.
  rewrite fetch_data_run, Hr. simpl. rewrite Hs, Hb. simpl.
  by rewrite Hloop.
Qed.

End PullRequestCheck.

(** ** Runs that end early, and the report *)

Section RunFacts.

Variable E : Env.

Lemma call_raises {A B} (ck : Check) (m : M A) (k : A → M B) st e :
  fst (m (mkState (client st) (log st ++ [EvEnter ck]))) = Raise e →
  fst (bind (call ck m) k st) = Raise e.
Proof.
  unfold call, emit, ret, bind. simpl.
  by destruct (m (mkState (client st) (log st ++ [EvEnter ck]))) as [[a|e'] st1];
    simpl; intros [= ->].
Qed.

Lemma call_bind_step {A B} (ck : Check) (m : M A) (k : A → M B) st :
  reads_only m →
  (∃ e, fst (bind (call ck m) k st) = Raise e) ∨
  (∃ a st1, client st1 = client st ∧ bind (call ck m) k st = k a st1).
Proof.
  intros Hm. unfold call, emit, ret, bind. simpl.
  destruct (Hm (mkState (client st) (log st ++ [EvEnter ck]))) as (gets & _ & Hsnd).
  destruct (m (mkState (client st) (log st ++ [EvEnter ck]))) as [[a|e] st1];
    simpl in Hsnd; subst st1; simpl.
  - right. eexists a, _. split; [|reflexivity]. done.
  - left. by exists e.
Qed.

Lemma analyze_issues_error st r :
  resource E (client st) "/issues?state=open" = Some r →
  400 ≤ status_code r < 600 →
  fst (analyze_issues E st) = Raise (HTTPError (status_code r)).
Proof.
  intros Hr Hs. unfold analyze_issues, bind, self. simpl.
  destruct (fetch_data E (base_url (client st) +:+ "/issues?state=open") st)
    as [res st1] eqn:Hf.
  assert (res = Raise (HTTPError (status_code r))) as ->; [|done].
  change res with (fst (res, st1)). rewrite <- Hf.
  apply fetch_data_error; [done|]. by apply is_error_status_spec.
Qed.

Lemma analyze_pull_requests_error st r :
  resource E (client st) "/pulls?state=open" = Some r →
  400 ≤ status_code r < 600 →
  fst (analyze_pull_requests E st) = Raise (HTTPError (status_code r)).
Proof.
  intros Hr Hs. unfold analyze_pull_requests, bind, self. simpl.
  destruct (fetch_data E (base_url (client st) +:+ "/pulls?state=open") st)
    as [res st1] eqn:Hf.
  assert (res = Raise (HTTPError (status_code r))) as ->; [|done].
  change res with (fst (res, st1)). rewrite <- Hf.
  apply fetch_data_error; [done|]. by apply is_error_status_spec.
Qed.

Lemma run_checks_raise_issues st r :
  resource E (client st) "/issues?state=open" = Some r →
  400 ≤ status_code r < 600 →
  ∃ e, fst (run_checks E st) = Raise e.
Proof.
  intros Hr Hs. unfold run_checks.
  match goal with |- ∃ e, fst (bind (call ?c ?m) ?k st) = _ =>
    destruct (call_bind_step c m k st (reads_only_check_documentation E))
      as [He | (a & st1 & Hc & ->)] end; [done|].
  eexists. apply call_raises.
  apply (analyze_issues_error _ r); [simpl; by rewrite Hc | done].
Qed.

Lemma run_checks_raise_pulls st r :
  resource E (client st) "/pulls?state=open" = Some r →
  400 ≤ status_code r < 600 →
  ∃ e, fst (run_checks E st) = Raise e.
Proof.
  intros Hr Hs. unfold run_checks.
  match goal with |- ∃ e, fst (bind (call ?c ?m) ?k st) = _ =>
    destruct (call_bind_step c m k st (reads_only_check_documentation E))
      as [He | (a & st1 & Hc & ->)] end; [done|].
  match goal with |- ∃ e, fst (bind (call ?c ?m) ?k st1) = _ =>
    destruct (call_bind_step c m k st1 (reads_only_analyze_issues E))
      as [He | (a' & st2 & Hc' & ->)] end; [done|].
  eexists. apply call_raises.
  apply (analyze_pull_requests_error _ r); [simpl; by rewrite Hc', Hc | done].
Qed.

Lemma aborted_run (c : Client) :
  (∃ e, fst (run_checks E (mkState c [])) = Raise e) →
  is_ok (fst (report_findings E (mkState c []))) = false ∧
  Forall is_check_event (log (snd (report_findings E (mkState c [])))).
Proof.
  intros [e He].
  destruct (report_findings_run E (mkState c [])) as (cevs & _ & Htr & Hrep).
  destruct (checks_trace_marks _ _ _ Htr) as (_ & _ & Hev). clear Htr.
  rewrite He in Hrep. by rewrite Hrep.
Qed.

(** X10. A listing of the open issues, or of the open pull requests, that
    is answered with a 4xx or 5xx status makes its check raise the
    [HTTPError] with that status, and ends the run: [report_findings]
    raises, and its log has no report and no ticket, nothing but the
    events of the checks. *)
Theorem listing_failure_aborts (c : Client) r :
  400 ≤ status_code r < 600 →
  (resource E c "/issues?state=open" = Some r →
   (∀ st, client st = c →
      fst (analyze_issues E st) = Raise (HTTPError (status_code r))) ∧
   is_ok (fst (report_findings E (mkState c []))) = false ∧
   Forall is_check_event (log (snd (report_findings E (mkState c []))))) ∧
  (resource E c "/pulls?state=open" = Some r →
   (∀ st, client st = c →
      fst (analyze_pull_requests E st) = Raise (HTTPError (status_code r))) ∧
   is_ok (fst (report_findings E (mkState c []))) = false ∧
   Forall is_check_event (log (snd (report_findings E (mkState c []))))).
Proof.
  intros Hs. split; intros Hr.
  - split; [intros st <-; by apply analyze_issues_error|].
    apply aborted_run. by apply (run_checks_raise_issues (mkState c []) r).
  - split; [intros st <-; by apply analyze_pull_requests_error|].
    apply aborted_run. by apply (run_checks_raise_pulls (mkState c []) r).
Qed.

(** X12. No run submits two tickets with the same title, and every title
    is one of the nine of the remediation policy. *)
Theorem one_ticket_per_title (c : Client) :
  let titles := map fst (tickets (log (snd (report_findings E (mkState c []))))) in
  NoDup titles ∧ titles `sublist_of` ticket_order.
Proof.
  cbv zeta.
  assert (map fst (tickets (log (snd (report_findings E (mkState c [])))))
          `sublist_of` ticket_order) as Hsub.
  { destruct (run_checks E (mkState c [])) as [[s|e] st1] eqn:Hchecks.
    - destruct (remediation_reached E c s st1 Hchecks) as ([k Hk] & _).
      etrans; [|apply (planned_titles s)].
      rewrite Hk, fmap_app. by apply sublist_inserts_r.
    - destruct (report_findings_run E (mkState c [])) as (cevs & _ & Htr & Hrep).
      destruct (checks_trace_marks _ _ _ Htr) as (_ & _ & Hev). clear Htr.
      rewrite Hchecks in Hrep. simpl in Hrep. rewrite Hrep. simpl.
      rewrite (tickets_check_events _ Hev). apply sublist_nil_l. }
  split; [|done].
  eapply sublist_NoDup; [|exact Hsub].
  unfold ticket_order. apply (bool_decide_unpack (NoDup _)). by vm_compute.
Qed.

End RunFacts.

(** ** The console of a run *)

Section Console.

Variable E : Env.

Lemma prints_app (a b : list Event) : prints (a ++ b) = prints a ++ prints b.
Proof. apply omap_app. Qed.

Lemma console_app (a b : list Event) : console E (a ++ b) = console E a ++ console E b.
Proof. apply flat_map_app. Qed.

Lemma prints_check_events (evs : list Event) :
  Forall is_check_event evs → prints evs = [].
Proof.
  induction 1 as [|e evs He _ IH]; [done|].
  destruct e; simpl in *; try done.
Qed.

Lemma traffic_create_issue (title body : string) :
  ticket_traffic E (create_issue E title body).
Proof.
  intros st. rewrite create_issue_run. cbv zeta. simpl.
  destruct (requests_post E _ _ title body) as [response|] eqn:Hpost.
  - eexists [_; _]. simpl. rewrite <- app_assoc. split; [reflexivity|].
    split; [by repeat constructor|].
    unfold console, prints. simpl. by rewrite Hpost.
  - eexists [_]. simpl. split; [reflexivity|].
    split; [by repeat constructor|].
    unfold console, prints. simpl. by rewrite Hpost.
Qed.

Lemma traffic_when (b : bool) (title body : string) :
  ticket_traffic E (when b (create_issue E title body)).
Proof.
  destruct b; simpl; [apply traffic_create_issue|].
  intros st. exists []. by rewrite app_nil_r.
Qed.

Lemma traffic_seq (m k : M unit) :
  ticket_traffic E m → ticket_traffic E k → ticket_traffic E (m ;;; k).
Proof.
  intros Hm Hk st. unfold bind.
  destruct (Hm st) as (e1 & Hl1 & He1 & Hp1).
  destruct (m st) as [[[]|e] st1]; simpl in *.
  - destruct (Hk st1) as (e2 & Hl2 & He2 & Hp2).
    exists (e1 ++ e2). rewrite Hl2, Hl1, app_assoc. split; [done|].
    split; [by apply Forall_app|]. by rewrite prints_app, console_app, Hp1, Hp2.
  - by exists e1.
Qed.

Lemma traffic_remediate (s : Statuses) : ticket_traffic E (remediate E s).
Proof.
  unfold remediate.
  repeat (apply traffic_seq; [apply traffic_when|]). apply traffic_when.
Qed.

(** No line of a ticket is a report. *)
Lemma report_not_on_console (name : string) (s : Statuses) (evs : list Event) :
  render_report name s ∉ console E evs.
Proof.
  induction evs as [|e evs IH]; [apply not_elem_of_nil|].
  change (e :: evs) with ([e] ++ evs). rewrite console_app.
  intros [Hin|Hin]%elem_of_app; [|done]. revert Hin.
  destruct e as [| | |url h title body|]; simpl; try apply not_elem_of_nil.
  destruct (requests_post E h url title body) as [response|]; simpl;
    [|apply not_elem_of_nil].
  intros [Hline|Hin]%elem_of_cons; [|by apply elem_of_nil in Hin]. revert Hline.
  unfold ticket_line, render_report, nl.
  destruct (status_code response =? 201); simpl; discriminate.
Qed.

(** X11. A run prints its report exactly once, when all ten checks have
    returned and before any ticket: the log is the events of the checks,
    none of which is a print, then the report with the statuses the checks
    returned, then ticket requests and their lines.  What is printed after
    the report is one line for each ticket request that is answered, the
    line that [create_issue] prints for the reply, and none of these lines
    is the report.  When a check raises, the run raises the same exception
    and nothing is printed. *)
Theorem report_once (c : Client) :
  let evs := log (snd (report_findings E (mkState c []))) in
  match fst (run_checks E (mkState c [])) with
  | Ok s =>
      let report := render_report (repo_name c) s in
      ∃ cevs revs,
        evs = cevs ++ EvPrint report :: revs ∧
        Forall is_check_event cevs ∧
        marks cevs = schedule check_order ∧
        Forall is_report_event revs ∧
        tickets revs `prefix_of` planned_tickets s ∧
        prints revs = console E revs ∧
        prints evs = report :: console E revs ∧
        report ∉ console E revs
  | Raise e =>
      fst (report_findings E (mkState c [])) = Raise e ∧
      Forall is_check_event evs ∧
      prints evs = []
  end.
Proof.
  cbv zeta.
  destruct (report_findings_run E (mkState c [])) as (cevs & _ & Htr & Hrep).
  destruct (checks_trace_marks _ _ _ Htr) as (_ & Hall & Hev). clear Htr.
  destruct (fst (run_checks E (mkState c []))) as [s|e]; simpl in *.
  - destruct (remediate_submits E s
                (mkState c (cevs ++ [EvPrint (render_report (repo_name c) s)])))
      as (revs & c' & Hsnd & _ & Hrev & Hpre & _).
    destruct (traffic_remediate s
                (mkState c (cevs ++ [EvPrint (render_report (repo_name c) s)])))
      as (revs' & Hlog & _ & Hprints).
    rewrite Hsnd in Hlog. simpl in Hlog. apply app_inv_head in Hlog as <-.
    exists cevs, revs. rewrite Hrep, Hsnd. simpl. rewrite <- app_assoc. simpl.
    split; [done|]. split; [done|]. split; [by apply Hall|]. split; [done|].
    split; [done|]. split; [done|]. split; [|apply report_not_on_console].
    rewrite prints_app, (prints_check_events _ Hev). simpl. by rewrite Hprints.
  - rewrite Hrep. simpl. split; [done|]. split; [done|]. by apply prints_check_events.
Qed.

End Console.

(** The console of a run on the bare repository. *)
Lemma bare_repository_console :
  prints (log (snd (report_findings bare_repository demo_state)))
  = [render_report "octo/repo"
       (mkStatuses "README.md file is missing."
          "No unresolved open issues." "No unresolved open pull requests."
          ["package.json is missing."; "requirements.txt is missing."]
          "Found 3 security vulnerabilities." "License file is missing."
          "Contributing guidelines are missing." "Issue templates are missing."
          "Pull request templates are missing." "Changelog is missing.");
     "Issue created: Missing README.md or essential sections";
     "Issue created: Missing dependency files";
     "Issue created: Security vulnerabilities detected";
     "Issue created: License file missing";
     "Issue created: Contributing guidelines missing";
     "Issue created: Issue templates missing";
     "Issue created: Pull request templates missing";
     "Issue created: Changelog missing"].
Proof. vm_compute. reflexivity. Qed.


(** ** Issues that the first mention settles *)

Section SettledIssues.

Variable E : Env.

Lemma py_any_first_mention (word : string) (before after : list json)
    (comment : json) (body : string) :
  PyStr.lower word = word →
  Forall text_comment before →
  py_getitem comment "body" = Ok (JStr body) →
  ci_occurs word body →
  py_any (mentions word) (before ++ comment :: after) = Ok true.
Proof.
  intros Hw Hbefore Hbody Hocc.
  induction Hbefore as [|c before [b Hb] _ IH]; simpl.
  - rewrite (mentions_text word comment body Hbody).
    by rewrite (proj2 (flagged_spec word body Hw) Hocc).
  - rewrite (mentions_text word c b Hb).
    by destruct (PyStr.contains word (PyStr.lower b)).
Qed.

Lemma issue_step_settled st acc issue :
  settled_by E (client st) "resolved" issue →
  ∃ st', issue_step E acc issue st = (Ok acc, st') ∧ client st' = client st.
Proof.
  intros (before & comment & after & body & (url & r & Hu & Hr & Hs & Hb)
          & Hbefore & Hbody & Hocc).
  exists (sent url st). split; [|done].
  unfold issue_step, bind, lift. rewrite Hu. simpl.
  rewrite fetch_data_run, Hr. simpl. rewrite Hs, Hb. simpl.
  by rewrite (py_any_first_mention "resolved" before after comment body eq_refl
                Hbefore Hbody Hocc).
Qed.

Lemma settled_loop issues st acc :
  Forall (settled_by E (client st) "resolved") issues →
  ∃ st', for_each issues acc (issue_step E) st = (Ok acc, st').
Proof.
  revert st. induction issues as [|issue issues IH]; intros st Hall; simpl.
  - by exists st.
  - apply Forall_cons in Hall as [Hissue Hall].
    destruct (issue_step_settled st acc issue Hissue) as (st1 & Hstep & Hc).
    unfold bind. rewrite Hstep. apply IH. by rewrite Hc.
Qed.

(** X13. An issue counts as resolved as soon as one comment of its thread
    mentions "resolved", in any casing: what follows that comment is not
    looked at, and neither are the time stamps of the issue.  When every
    open issue has such a comment, after comments with a text body, the
    check returns "No unresolved open issues.". *)
Theorem issues_all_settled st r issues :
  resource E (client st) "/issues?state=open" = Some r →
  status_code r = 200 →
  json_body r = JList issues →
  Forall (settled_by E (client st) "resolved") issues →
  fst (analyze_issues E st) = Ok "No unresolved open issues.".
Proof.
  unfold resource. intros Hr Hs Hb Hall.
  destruct (settled_loop issues (sent (base_url (client st) +:+ "/issues?state=open") st)
              [] Hall) as (st1 & Hloop).
  unfold analyze_issues, bind, self, lift. simpl.
  rewrite fetch_data_run, Hr. simpl. rewrite Hs, Hb. simpl.
  simpl in Hloop. by rewrite Hloop.
Qed.

End SettledIssues.

(** ** The ticket for the dependency manifests *)

Section DependencyTicket.

Variable E : Env.

Lemma dependency_step_unanswered st acc file_name :
  resource E (client st) ("/contents/" +:+ file_name) = None →
  fst (dependency_step E acc file_name st) = Raise RequestException.
Proof.
  unfold resource. intros Hr.
  unfold dependency_step, bind, self, try_except_HTTPError. simpl in *.
  by rewrite fetch_data_run, Hr.
Qed.

Lemma dependency_loop_answered files st acc statuses :
  fst (for_each files acc (dependency_step E) st) = Ok statuses →
  Forall (λ f, is_Some (resource E (client st) ("/contents/" +:+ f))) files.
Proof.
  revert st acc. induction files as [|f files IH]; intros st acc Hrun; [done|].
  change (for_each (f :: files) acc (dependency_step E))
    with (bind (dependency_step E acc f)
               (λ acc', for_each files acc' (dependency_step E))) in Hrun.
  unfold bind in Hrun.
  destruct (resource E (client st) ("/contents/" +:+ f)) as [r|] eqn:Hr.
  - rewrite (dependency_step_run E st acc f r Hr) in Hrun.
    constructor; [by rewrite Hr|]. by apply IH in Hrun.
  - pose proof (dependency_step_unanswered st acc f Hr) as Hstep.
    destruct (dependency_step E acc f st) as [res st1]. simpl in Hstep. by subst res.
Qed.

Lemma manifest_flagged (f : string) (r : Response) :
  f ∈ manifest_files →
  flagged "missing" (manifest_verdict f r) = is_error_status (status_code r).
Proof.
  unfold manifest_files, manifest_verdict. intros Hf.
  repeat (apply elem_of_cons in Hf as [->|Hf];
          [by destruct (is_error_status (status_code r))|]).
  by apply elem_of_nil in Hf.
Qed.

Lemma dependency_title (s : Statuses) :
  filter (λ t : string * string, fst t = "Missing dependency files") (planned_tickets s)
  = ticket_if (existsb (flagged "missing") (dependencies_status s))
      "Missing dependency files" (PyStr.join ", " (dependencies_status s)).
Proof.
  unfold planned_tickets.
  rewrite !filter_app, !filter_ticket_if.
  repeat (case_decide; [try discriminate|try done]).
  by rewrite app_nil_r.
Qed.

(** X14. In a run whose checks all return, the reads of both manifests
    were answered, and the ticket "Missing dependency files" is planned,
    once, if and only if one of them was answered with a 4xx or 5xx status;
    its body is the statuses of the two manifests, joined by a comma and a
    space. *)
Theorem dependency_ticket (c : Client) s st1 :
  run_checks E (mkState c []) = (Ok s, st1) →
  Forall2 (λ f m, ∃ r, resource E c ("/contents/" +:+ f) = Some r ∧
                       m = manifest_verdict f r)
          manifest_files (dependencies_status s) ∧
  filter (λ t : string * string, fst t = "Missing dependency files") (planned_tickets s)
  = ticket_if (existsb (manifest_missing E c) manifest_files)
      "Missing dependency files" (PyStr.join ", " (dependencies_status s)).
Proof.
  intros Hchecks.
  destruct (run_checks_yields E _ _ _ Hchecks) as (_ & _ & _ & (st & Hc & Hdep) & _).
  simpl in Hc. unfold check_dependencies in Hdep.
  pose proof (dependency_loop_answered _ _ _ _ Hdep) as Hall.
  destruct (dependency_loop E manifest_files st [] Hall) as (statuses & st' & Hrun & _ & H2).
  rewrite Hrun in Hdep. simpl in Hdep. injection Hdep as Hdep. subst statuses.
  rewrite Hc in H2. split; [exact H2|].
  rewrite dependency_title. f_equal.
  unfold manifest_files in *.
  apply Forall2_cons_inv_l in H2 as (m1 & rest & (r1 & Hr1 & ->) & H2 & ->).
  apply Forall2_cons_inv_l in H2 as (m2 & rest' & (r2 & Hr2 & ->) & H2 & ->).
  apply Forall2_nil_inv_l in H2 as ->.
  unfold existsb, manifest_missing. rewrite Hr1, Hr2.
  by rewrite !manifest_flagged by (unfold manifest_files; set_solver).
Qed.

End DependencyTicket.

(** ** The requests of a run *)

Section Requests.

Variable E : Env.

Lemma sends_ret {A} (a : A) : sends_as_client (ret a).
Proof. intros [c l]. exists []. by rewrite app_nil_r. Qed.

Lemma sends_raise {A} (e : exn) : sends_as_client (@raise A e).
Proof. intros [c l]. exists []. by rewrite app_nil_r. Qed.

Lemma sends_lift {A} (r : Result A) : sends_as_client (lift r).
Proof. intros [c l]. exists []. by rewrite app_nil_r. Qed.

Lemma sends_self : sends_as_client self.
Proof. intros [c l]. exists []. by rewrite app_nil_r. Qed.

Lemma sends_enter (ck : Check) : sends_as_client (emit (EvEnter ck)).
Proof. intros st. exists [EvEnter ck]. split; [by repeat constructor|done]. Qed.

Lemma sends_leave (ck : Check) : sends_as_client (emit (EvLeave ck)).
Proof. intros st. exists [EvLeave ck]. split; [by repeat constructor|done]. Qed.

Lemma sends_bind {A B} (m : M A) (k : A → M B) :
  sends_as_client m → (∀ a, sends_as_client (k a)) → sends_as_client (bind m k).
Proof.
  intros Hm Hk st. unfold bind.
  destruct (Hm st) as (g1 & Hg1 & H1).
  destruct (m st) as [[a|e] st1]; simpl in H1; subst st1.
  - destruct (Hk a (mkState (client st) (log st ++ g1))) as (g2 & Hg2 & H2).
    exists (g1 ++ g2). split; [by apply Forall_app|].
    rewrite H2. simpl. by rewrite app_assoc.
  - by exists g1.
Qed.

Lemma sends_try {A} (body handler : M A) :
  sends_as_client body → sends_as_client handler →
  sends_as_client (try_except_HTTPError body handler).
Proof.
  intros Hb Hh st. unfold try_except_HTTPError.
  destruct (Hb st) as (g1 & Hg1 & H1).
  destruct (body st) as [[a|e] st1]; simpl in H1; subst st1.
  - by exists g1.
  - destruct e; try by exists g1.
    destruct (Hh (mkState (client st) (log st ++ g1))) as (g2 & Hg2 & H2).
    exists (g1 ++ g2). split; [by apply Forall_app|].
    rewrite H2. simpl. by rewrite app_assoc.
Qed.

Lemma sends_for_each {A B} (step : B → A → M B) (xs : list A) (acc : B) :
  (∀ b a, sends_as_client (step b a)) → sends_as_client (for_each xs acc step).
Proof.
  intros Hstep. revert acc. induction xs as [|x xs IH]; intros acc; simpl.
  - apply sends_ret.
  - apply sends_bind; auto.
Qed.

Lemma sends_fetch_data (url : string) : sends_as_client (fetch_data E url).
Proof.
  intros st. rewrite fetch_data_run. eexists. split; [|reflexivity].
  by repeat constructor.
Qed.

Lemma sends_fetch_data_at (u : json) : sends_as_client (fetch_data_at E u).
Proof. destruct u; simpl; try apply sends_raise. apply sends_fetch_data. Qed.

Create HintDb sends discriminated.

#[local] Hint Resolve sends_ret sends_raise sends_lift sends_self sends_enter sends_leave
  sends_fetch_data sends_fetch_data_at : sends.

Ltac sends :=
  repeat first
    [ solve [auto with sends]
    | apply sends_bind; [|intros ?]
    | apply sends_try
    | apply sends_for_each; intros ? ?
    | match goal with |- sends_as_client (if ?b then _ else _) => destruct b end ].

Lemma sends_call {A} (ck : Check) (m : M A) :
  sends_as_client m → sends_as_client (call ck m).
Proof. intros Hm. unfold call. sends. Qed.

Lemma sends_probe (path present missing : string) :
  sends_as_client (probe E path present missing).
Proof. unfold probe. sends. Qed.

Lemma sends_run_checks : sends_as_client (run_checks E).
Proof.
  unfold run_checks.
  repeat (apply sends_bind; [apply sends_call|intros ?]).
  - unfold check_documentation. sends.
  - unfold analyze_issues, issue_step. sends.
  - unfold analyze_pull_requests, pull_step. sends.
  - unfold check_dependencies, dependency_step. sends.
  - unfold check_security. sends.
  - unfold check_license. sends.
  - apply sends_probe.
  - apply sends_probe.
  - apply sends_probe.
  - apply sends_probe.
  - apply sends_ret.
Qed.

Lemma frame_accept (c c' : Client) :
  frame c c' → <["Accept" := accept]> (headers c') = <["Accept" := accept]> (headers c).
Proof.
  intros (_ & _ & _ & [-> | ->]); [done|]. apply insert_insert_eq.
Qed.

Lemma posts_create_issue (c : Client) (title body : string) :
  posts_as c (create_issue E title body).
Proof.
  intros st Hf. rewrite create_issue_run. cbv zeta.
  pose proof (frame_accept _ _ Hf) as Hacc.
  destruct Hf as (Ht & Hr & Hb & Hh).
  assert (frame c (mkClient (token (client st)) (repo_name (client st))
                            (base_url (client st))
                            (<["Accept" := accept]> (headers (client st))))) as Hf'.
  { unfold frame. simpl. rewrite Hacc. auto. }
  destruct (requests_post E _ _ title body) as [response|]; simpl.
  - eexists [_; _]. rewrite <- app_assoc. split; [|by split].
    repeat constructor; simpl; by rewrite ?Hb, ?Hacc.
  - eexists [_]. split; [|by split].
    repeat constructor; simpl; by rewrite ?Hb, ?Hacc.
Qed.

Lemma posts_when (c : Client) (b : bool) (title body : string) :
  posts_as c (when b (create_issue E title body)).
Proof.
  destruct b; simpl; [apply posts_create_issue|].
  intros st Hf. exists []. by rewrite app_nil_r.
Qed.

Lemma posts_seq (c : Client) (m k : M unit) :
  posts_as c m → posts_as c k → posts_as c (m ;;; k).
Proof.
  intros Hm Hk st Hf. unfold bind.
  destruct (Hm st Hf) as (e1 & He1 & Hl1 & Hf1).
  destruct (m st) as [[[]|e] st1]; simpl in *.
  - destruct (Hk st1 Hf1) as (e2 & He2 & Hl2 & Hf2).
    exists (e1 ++ e2). split; [by apply Forall_app|].
    split; [|done]. by rewrite Hl2, Hl1, app_assoc.
  - by exists e1.
Qed.

Lemma posts_remediate (c : Client) (s : Statuses) : posts_as c (remediate E s).
Proof.
  unfold remediate.
  repeat (apply posts_seq; [apply posts_when|]). apply posts_when.
Qed.

Lemma run_requests (c : Client) :
  Forall (request_of c) (log (snd (report_findings E (mkState c [])))).
Proof.
  destruct (report_findings_run E (mkState c [])) as (cevs & Hsnd & _ & Hrep).
  destruct (sends_run_checks (mkState c [])) as (evs & Hevs & Hsnd').
  rewrite Hsnd in Hsnd'. simpl in Hsnd'. injection Hsnd' as ->. simpl in Hevs.
  destruct (fst (run_checks E (mkState c []))) as [s|e]; simpl in Hrep.
  - destruct (posts_remediate c s
                (mkState c (evs ++ [EvPrint (render_report (repo_name c) s)]))
                (frame_refl c)) as (revs & Hrevs & Hlog & _).
    rewrite Hrep, Hlog. simpl.
    apply Forall_app. split; [|done]. apply Forall_app. split; [done|].
    by repeat constructor.
  - by rewrite Hrep.
Qed.

(** X15. Every request of a run is made in the name of the client: each
    read, also of an address taken from a reply (the comments of an issue
    or of a pull request), carries the headers of the client, and each
    ticket goes to the issue tracker of the audited repository with those
    headers and the [Accept] entry.  For the client that [main] builds, the
    headers of every read are the authorization with the token, and
    nothing else. *)
Theorem requests_in_the_name_of_the_client (c : Client) (token repo_name : string) :
  Forall (request_of c) (log (snd (report_findings E (mkState c [])))) ∧
  Forall (λ e,
            match e with
            | EvGet _ h => h = {[ "Authorization" := "token " +:+ token ]}
            | EvPost url h _ _ =>
                url = "https://api.github.com/repos/" +:+ repo_name +:+ "/issues" ∧
                h = <["Accept" := accept]> {[ "Authorization" := "token " +:+ token ]}
            | _ => True
            end)
         (log (snd (main E token repo_name))).
Proof.
  split; [apply run_requests|].
  eapply Forall_impl; [apply (run_requests (init token repo_name))|].
  by intros [ck|ck|url h|url h title body|text].
Qed.

(** ** Tickets that the platform rejects *)

Lemma create_issue_answered (title body : string) st :
  tickets_answered E → fst (create_issue E title body st) = Ok tt.
Proof.
  intros Hans. rewrite create_issue_run. cbv zeta.
  destruct (requests_post E _ _ title body) as [response|] eqn:Hpost; [done|].
  exfalso. eapply is_Some_None. rewrite <- Hpost. apply Hans.
Qed.

Lemma seq_returns (m k : M unit) :
  (∀ st, fst (m st) = Ok tt) → (∀ st, fst (k st) = Ok tt) →
  ∀ st, fst ((m ;;; k) st) = Ok tt.
Proof.
  intros Hm Hk st. unfold bind. specialize (Hm st).
  destruct (m st) as [[[]|e] st1]; simpl in Hm; [apply Hk|discriminate].
Qed.

Lemma when_returns (b : bool) (title body : string) :
  tickets_answered E → ∀ st, fst (when b (create_issue E title body) st) = Ok tt.
Proof. intros Hans st. destruct b; simpl; [by apply create_issue_answered|done]. Qed.

Lemma remediate_returns (s : Statuses) :
  tickets_answered E → ∀ st, fst (remediate E s st) = Ok tt.
Proof.
  intros Hans. unfold remediate.
  repeat (apply seq_returns; [by apply when_returns|]). by apply when_returns.
Qed.

(** X16. A ticket that the platform rejects does not end the run: when
    every ticket request is answered, with whatever status, a run whose
    checks all return completes, and it has submitted every planned ticket,
    in the order of the plan. *)
Theorem rejected_tickets_go_on (c : Client) s st1 :
  tickets_answered E →
  run_checks E (mkState c []) = (Ok s, st1) →
  fst (report_findings E (mkState c [])) = Ok tt ∧
  tickets (log (snd (report_findings E (mkState c [])))) = planned_tickets s.
Proof.
  intros Hans Hchecks.
  assert (fst (report_findings E (mkState c [])) = Ok tt) as Hok.
  { destruct (report_findings_run E (mkState c [])) as (cevs & _ & _ & Hrep).
    rewrite Hchecks in Hrep. simpl in Hrep. rewrite Hrep.
    by apply remediate_returns. }
  split; [done|].
  destruct (remediation_reached E c s st1 Hchecks) as (_ & Hall & _).
  by apply Hall.
Qed.

(** X17. What [create_issue] does with the reply: a request without a
    reply raises, with the request on the log and nothing printed; a reply
    is followed by one console line, which is the confirmation exactly
    when the status is 201.  In both cases the client has the [Accept]
    entry afterwards, and every other header as it was. *)
Theorem ticket_outcome (title body : string) st :
  let c := client st in
  let request := EvPost (base_url c +:+ "/issues") (<["Accept" := accept]> (headers c))
                        title body in
  let st' := snd (create_issue E title body st) in
  headers (client st') !! "Accept" = Some accept ∧
  (∀ key, key ≠ "Accept" → headers (client st') !! key = headers c !! key) ∧
  match requests_post E (<["Accept" := accept]> (headers c))
                      (base_url c +:+ "/issues") title body with
  | None =>
      fst (create_issue E title body st) = Raise RequestException ∧
      log st' = log st ++ [request]
  | Some response =>
      fst (create_issue E title body st) = Ok tt ∧
      ∃ line, log st' = log st ++ [request; EvPrint line] ∧
              (line = "Issue created: " +:+ title ↔ status_code response = 201)
  end.
Proof.
  cbv zeta. rewrite create_issue_run. cbv zeta.
  destruct (requests_post E _ _ title body) as [response|]; simpl.
  - split; [by rewrite lookup_insert_eq|].
    split; [intros key Hkey; by rewrite lookup_insert_ne|].
    split; [done|]. eexists. rewrite <- app_assoc. split; [reflexivity|].
    destruct (status_code response =? 201) eqn:Hs.
    + apply Z.eqb_eq in Hs. by split.
    + apply Z.eqb_neq in Hs. split; [discriminate|done].
  - split; [by rewrite lookup_insert_eq|].
    split; [intros key Hkey; by rewrite lookup_insert_ne|]. done.
Qed.

End Requests.

(** ** The properties above, on concrete platforms *)

Lemma unexpected_status_raises_witness :
  fst (check_documentation no_content demo_state) = Raise TypeError ∧
  fst (analyze_issues no_content demo_state) = Raise TypeError ∧
  fst (analyze_pull_requests no_content demo_state) = Raise TypeError ∧
  fst (check_security no_content demo_state) = Raise TypeError ∧
  fst (check_license no_content demo_state) = Raise TypeError.
Proof.
  assert (status_code (answer 204 JNull) ≠ 200) as H200 by discriminate.
  assert (¬ 400 ≤ status_code (answer 204 JNull) < 600) as Herr by (simpl; lia).
  destruct (unexpected_status_raises no_content demo_state (answer 204 JNull) H200 Herr)
    as (Hdoc & Hiss & Hpul & Hsec & Hlic).
  split; [exact (Hdoc eq_refl)|]. split; [exact (Hiss eq_refl)|].
  split; [exact (Hpul eq_refl)|]. split; [exact (Hsec eq_refl) | exact (Hlic eq_refl)].
Defined.

Lemma security_count_witness :
  ∃ status,
    fst (check_security (alerted 5) demo_state) = Ok status ∧
    (5 = 0 → status = "No reported vulnerabilities.") ∧
    (5 ≠ 0 → status = "Found " +:+ PyStr.of_Z 5 +:+ " security vulnerabilities.") ∧
    flagged "security vulnerabilities" status = true.
Proof.
  exact (security_count (alerted 5) demo_state
           (answer 200 (JObj [("total_count", JInt 5)])) 5 eq_refl eq_refl eq_refl).
Defined.

Lemma license_verdict_witness :
  fst (check_license oddly_licensed demo_state)
  = Ok "License file is present with Missing Link License license.".
Proof.
  exact (proj2 (license_verdict oddly_licensed demo_state
                  (answer 200 (JObj [("license",
                     JObj [("name", JStr "Missing Link License")])])) eq_refl) eq_refl).
Defined.

Lemma license_name_flagged_witness :
  fst (check_license oddly_licensed demo_state)
  = Ok "License file is present with Missing Link License license." ∧
  flagged "missing" "License file is present with Missing Link License license." = true.
Proof.
  apply (license_name_flagged oddly_licensed demo_state
           (answer 200 (JObj [("license", JObj [("name", JStr "Missing Link License")])]))
           (JObj [("name", JStr "Missing Link License")]) "Missing Link License");
    try reflexivity.
  by apply flagged_spec.
Defined.

Lemma pulls_counted_witness :
  ∃ kept,
    fst (analyze_pull_requests review_board demo_state) = Ok (pulls_message kept) ∧
    kept `sublist_of` [merged_pull; open_pull "7"; open_pull "8"] ∧
    Forall unmerged kept ∧
    (∀ pull thread, pull ∈ [merged_pull; open_pull "7"; open_pull "8"] → unmerged pull →
       serves_pull review_board (client demo_state) pull thread →
       Forall (silent_on "addressed") thread → pull ∈ kept).
Proof.
  apply (pulls_counted review_board demo_state
           (answer 200 (JList [merged_pull; open_pull "7"; open_pull "8"])));
    try reflexivity.
  constructor; [|constructor; [|constructor; [|constructor]]].
  - left. by exists (JStr "2024-05-01T00:00:00Z").
  - right. split; [by exists JNull|].
    exists [JObj [("body", JStr "Addressed, thanks")]]. split.
    + eexists _, _, _, _. repeat split; reflexivity.
    + constructor; [by eexists | constructor].
  - right. split; [by exists JNull|].
    exists [JObj [("body", JStr "please rebase")]]. split.
    + eexists _, _, _, _. repeat split; reflexivity.
    + constructor; [by eexists | constructor].
Defined.

Lemma merged_pulls_skipped_witness :
  analyze_pull_requests merged_board demo_state
  = (Ok "No unresolved open pull requests.",
     sent (demo_url "/pulls?state=open") demo_state).
Proof.
  apply (merged_pulls_skipped merged_board demo_state
           (answer 200 (JList [merged_pull; merged_pull])) [merged_pull; merged_pull]);
    try reflexivity.
  constructor; [|constructor; [|constructor]];
    by exists (JStr "2024-05-01T00:00:00Z").
Defined.

Lemma listing_failure_aborts_witness :
  is_ok (fst (report_findings nothing_found demo_state)) = false ∧
  is_ok (fst (report_findings pulls_forbidden demo_state)) = false.
Proof.
  split.
  - assert (400 ≤ status_code (answer 404 JNull) < 600) as Hs by (simpl; lia).
    exact (proj1 (proj2 (proj1 (listing_failure_aborts nothing_found demo_client
                                  (answer 404 JNull) Hs) eq_refl))).
  - assert (400 ≤ status_code (answer 403 JNull) < 600) as Hs by (simpl; lia).
    exact (proj1 (proj2 (proj2 (listing_failure_aborts pulls_forbidden demo_client
                                  (answer 403 JNull) Hs) eq_refl))).
Defined.

Lemma issues_all_settled_witness :
  fst (analyze_issues closed_board demo_state) = Ok "No unresolved open issues.".
Proof.
  apply (issues_all_settled closed_board demo_state (answer 200 (JList [bare_issue]))
           [bare_issue]); try reflexivity.
  constructor; [|constructor].
  exists [JObj [("body", JStr "looking into it")]],
         (JObj [("body", JStr "RESOLVED by #12")]), [JNull], "RESOLVED by #12".
  split; [eexists _, _; repeat split; reflexivity|].
  split; [constructor; [by eexists | constructor]|].
  split; [reflexivity|]. by apply flagged_spec.
Defined.

Lemma dependency_ticket_witness :
  ∃ s,
    fst (run_checks bare_repository demo_state) = Ok s ∧
    filter (λ t : string * string, fst t = "Missing dependency files") (planned_tickets s)
    = [("Missing dependency files", PyStr.join ", " (dependencies_status s))].
Proof.
  destruct (run_checks bare_repository demo_state) as [[s|e] st1] eqn:Hchecks;
    [|vm_compute in Hchecks; discriminate].
  exists s. split; [reflexivity|].
  exact (proj2 (dependency_ticket bare_repository demo_client s st1 Hchecks)).
Defined.

Lemma rejected_tickets_go_on_witness :
  fst (report_findings read_only_platform demo_state) = Ok tt ∧
  ∃ s, tickets (log (snd (report_findings read_only_platform demo_state)))
       = planned_tickets s.
Proof.
  assert (tickets_answered read_only_platform) as Hans by (intros h url t b; by eexists).
  destruct (run_checks read_only_platform demo_state) as [[s|e] st1] eqn:Hchecks;
    [|vm_compute in Hchecks; discriminate].
  destruct (rejected_tickets_go_on read_only_platform demo_client s st1 Hans Hchecks)
    as [Hok Htickets].
  split; [exact Hok|]. by exists s.
Defined.
